(** * Sales analytics and forecast: the aggregation-and-forecast pipeline

    A shallow embedding of [app.py]: the column check [validate_data], the
    summary and the grouped sums of the [/dashboard] route, the interchange
    form that carries the table to the [/forecast] route, and that route's
    daily series, thirty-day extrapolation and chart colours.

    Conventions of the embedding.
    - A floating-point number is an IEEE 754 binary64 value: a rational
      that is representable, an infinity or NaN.  Every operation rounds
      to nearest, ties to even ([rnd]); the sign of zero is not kept.
    - A column all of whose entries are whole numbers within the 64-bit
      range is an integer column, as [read_excel] and [read_json] make it:
      its sums are taken in 64-bit integers and wrap around.  Any other
      column of numbers and blanks is a binary64 column.
    - An instant is an integer count of nanoseconds since the epoch, the
      resolution of the table library's timestamps, at most
      [TIMESTAMP_MAX].
    - The line that [LinearRegression] fits comes out of a linear-algebra
      library whose rounding the source does not determine: the solver is
      a parameter of the forecast route.
    - A raised Python exception is the left summand of [Result].
    - Reading the upload, the HTTP layer, the image and the layout of the
      report are outside the embedding; of the report only the step that
      can raise is kept. *)

From Stdlib Require Import ZArith QArith Qcanon String Ascii List Lia Sorted.
From Stdlib Require PrimFloat FloatOps SpecFloat.
From stdpp Require Import base list sorting gmap strings.

Open Scope Z_scope.

(** ** Exceptions and results *)

Inductive exn : Type :=
| KeyError (key : string)
    (** [df[key]] or [groupby(key)] on a column that is not there *)
| MissingColumns (missing : gset string)
    (** [ValueError(f"Missing columns: {missing}")] of [validate_data] *)
| ValueError
    (** any other [ValueError]: a failed [float()]/[int()] of text, the
        [int()] of NaN, an empty or non-finite training set *)
| TypeError
    (** unsupported operand types, a sum over timestamps *)
| IndexError
    (** [iloc[-1]] on an empty series *)
| OverflowError
    (** [int()] of an infinity *)
| OutOfBoundsDatetime.
    (** an instant past [Timestamp.max] *)

(** The Python class an exception is an instance of. *)
Definition exn_class (e : exn) : string :=
  match e with
  | KeyError _ => "KeyError"
  | MissingColumns _ => "ValueError"
  | ValueError => "ValueError"
  | TypeError => "TypeError"
  | IndexError => "IndexError"
  | OverflowError => "OverflowError"
  | OutOfBoundsDatetime => "OutOfBoundsDatetime"
  end.

Definition Result (A : Type) : Type := exn + A.
Definition Ok {A} (a : A) : Result A := inr a.
Definition Raise {A} (e : exn) : Result A := inl e.

#[global] Instance exn_eq_decision : EqDecision exn.
Proof. solve_decision. Defined.
#[global] Instance result_eq_decision {A} `{EqDecision A} : EqDecision (Result A).
Proof. unfold Result. apply _. Defined.

#[global] Instance result_ret : MRet Result := fun _ a => inr a.
#[global] Instance result_bind : MBind Result := fun _ _ f m =>
  match m with
  | inl e => inl e
  | inr a => f a
  end.

(** [mapM] in evaluation order: the first failure is the one raised. *)
Fixpoint mapM {A B} (f : A -> Result B) (l : list A) : Result (list B) :=
  match l with
  | [] => Ok []
  | a :: l' => b ← f a; bs ← mapM f l'; Ok (b :: bs)
  end.

Fixpoint foldM {A B} (f : A -> B -> Result A) (a : A) (l : list B) : Result A :=
  match l with
  | [] => Ok a
  | b :: l' => a' ← f a b; foldM f a' l'
  end.

(** ** Binary64 arithmetic *)

Definition num (n d : Z) : Qc := Q2Qc (Qmake n (Z.to_pos d)).
Definition of_Z (n : Z) : Qc := Q2Qc (inject_Z n).

#[global] Instance Qc_eq_decision : EqDecision Qc := Qc_eq_dec.

Definition Qc_leb (x y : Qc) : bool :=
  if Qclt_le_dec y x then false else true.

Fixpoint Qc_sum (l : list Qc) : Qc :=
  match l with
  | [] => 0%Qc
  | q :: l' => (q + Qc_sum l')%Qc
  end.

Definition Z_sum (l : list Z) : Z := foldr Z.add 0 l.

(** A Python [float], a NumPy [float64]. *)
Inductive f64 : Type :=
| Fin (q : Qc)
| Inf (neg : bool)
| NaN.

#[global] Instance f64_eq_decision : EqDecision f64.
Proof. solve_decision. Defined.

(** The [e] with [2^(e-1) <= |q| < 2^e], for [q] other than zero. *)
Definition mag (q : Qc) : Z :=
  let a := Z.abs (Qnum q) in
  let d := Zpos (Qden q) in
  let k := Z.log2 a - Z.log2 d in
  if (if 0 <=? k then d * 2 ^ k <=? a else d <=? a * 2 ^ (- k))
  then k + 1 else k.

(** [n / d] rounded to the nearest integer, a tie to the even one. *)
Definition round_half_even (n d : Z) : Z :=
  let q := n / d in
  let r := n mod d in
  if 2 * r <? d then q
  else if d <? 2 * r then q + 1
  else if Z.even q then q else q + 1.

(** Rounding to binary64: 53 bits of precision, the last place never
    below [2^-1074], an infinity from [2^1024] on. *)
Definition rnd (q : Qc) : f64 :=
  let n := Qnum q in
  let d := Zpos (Qden q) in
  if n =? 0 then Fin 0%Qc
  else
    let e := Z.max (mag q - 53) (- 1074) in
    if 0 <=? e then
      let m := round_half_even (Z.abs n) (d * 2 ^ e) in
      if 2 ^ 1024 <=? m * 2 ^ e then Inf (n <? 0)
      else Fin (of_Z (Z.sgn n * m * 2 ^ e))
    else
      let m := round_half_even (Z.abs n * 2 ^ (- e)) d in
      Fin (num (Z.sgn n * m) (2 ^ (- e))).

Definition f64_of_Z (z : Z) : f64 := rnd (of_Z z).

Definition f64_opp (x : f64) : f64 :=
  match x with
  | Fin q => Fin (- q)%Qc
  | Inf s => Inf (negb s)
  | NaN => NaN
  end.

Definition f64_add (x y : f64) : f64 :=
  match x, y with
  | Fin a, Fin b => rnd (a + b)%Qc
  | Fin _, Inf s => Inf s
  | Inf s, Fin _ => Inf s
  | Inf s, Inf s' => if Bool.eqb s s' then Inf s else NaN
  | _, _ => NaN
  end.

Definition f64_sub (x y : f64) : f64 := f64_add x (f64_opp y).

Definition f64_mul (x y : f64) : f64 :=
  match x, y with
  | Fin a, Fin b => rnd (a * b)%Qc
  | Fin a, Inf s | Inf s, Fin a =>
      if Qnum a =? 0 then NaN else Inf (xorb s (Qnum a <? 0))
  | Inf s, Inf s' => Inf (xorb s s')
  | _, _ => NaN
  end.

(** [x <= y]: false as soon as one side is NaN. *)
Definition f64_leb (x y : f64) : bool :=
  match x, y with
  | Fin a, Fin b => Qc_leb a b
  | Fin _, Inf s => negb s
  | Inf s, Fin _ => s
  | Inf s, Inf s' => s || negb s'
  | _, _ => false
  end.

Definition is_nan (x : f64) : bool :=
  match x with NaN => true | _ => false end.

(** The value of one of the machine's doubles, for comparison with the
    arithmetic above. *)
Definition of_spec (x : SpecFloat.spec_float) : f64 :=
  match x with
  | SpecFloat.S754_zero _ => Fin 0%Qc
  | SpecFloat.S754_infinity s => Inf s
  | SpecFloat.S754_nan => NaN
  | SpecFloat.S754_finite s m e =>
      Fin ((if s then -1 else 1) * of_Z (Zpos m)
           * (if 0 <=? e then of_Z (2 ^ e) else num 1 (2 ^ (- e))))%Qc
  end.

Definition of_prim (x : PrimFloat.float) : f64 := of_spec (FloatOps.Prim2SF x).

(** The double nearest to the decimal [n * 10^-k]; zero where that is
    no finite number. *)
Definition double (n k : Z) : Qc :=
  match rnd (num n (10 ^ k)) with
  | Fin q => q
  | _ => 0%Qc
  end.

(** [np.add.reduce] on an array of doubles.  Fewer than eight entries
    are added from left to right, starting from zero; up to 128 entries
    go into eight running sums that are combined in pairs, the remainder
    added last; a longer array is cut in two. *)
Fixpoint add8 (r l : list f64) (k : nat) : list f64 * list f64 :=
  match k with
  | O => (r, l)
  | S k' => add8 (zip_with f64_add r (take 8 l)) (drop 8 l) k'
  end.

Definition unrolled_sum (l : list f64) : f64 :=
  let '(r, rest) := add8 (take 8 l) (drop 8 l) (length l / 8 - 1) in
  match r with
  | [r0; r1; r2; r3; r4; r5; r6; r7] =>
      fold_left f64_add rest
        (f64_add (f64_add (f64_add r0 r1) (f64_add r2 r3))
                 (f64_add (f64_add r4 r5) (f64_add r6 r7)))
  | _ => NaN
  end.

Fixpoint pairwise_sum (fuel : nat) (l : list f64) : f64 :=
  if (length l <? 8)%nat then fold_left f64_add l (Fin 0%Qc)
  else if (length l <=? 128)%nat then unrolled_sum l
  else match fuel with
       | O => NaN
       | S fuel' =>
           let n2 := (length l / 2 - (length l / 2) mod 8)%nat in
           f64_add (pairwise_sum fuel' (take n2 l))
                   (pairwise_sum fuel' (drop n2 l))
       end.

Definition f64_sum (l : list f64) : f64 := pairwise_sum (length l) l.

(** Compensated (Kahan) summation, as the grouped sum runs it. *)
Fixpoint kahan (sumx comp : f64) (l : list f64) : f64 :=
  match l with
  | [] => sumx
  | v :: l' =>
      let y := f64_sub v comp in
      let t := f64_add sumx y in
      let c := f64_sub (f64_sub t sumx) y in
      kahan t (if is_nan c then Fin 0%Qc else c) l'
  end.

(** Two's complement on 64 bits. *)
Definition wrap64 (z : Z) : Z := (z + 2 ^ 63) mod 2 ^ 64 - 2 ^ 63.

(** ** Cells and frames *)

Definition timestamp : Type := Z.

(** One day, in nanoseconds. *)
Definition DAY : Z := 86400 * 1000000000.

(** [pd.Timestamp.max], 2262-04-11 23:47:16.854775807. *)
Definition TIMESTAMP_MAX : Z := 2 ^ 63 - 1.

(** What a cell of the table can hold: a finite number, an infinity, a
    piece of text, an instant, or nothing (NaN, None, NaT). *)
Inductive cell : Type :=
| CNum (q : Qc)
| CInf (neg : bool)
| CStr (s : string)
| CDate (t : timestamp)
| CNull.

#[global] Instance cell_eq_decision : EqDecision cell.
Proof. solve_decision. Defined.

Definition to_f64 (c : cell) : f64 :=
  match c with
  | CNum q => rnd q
  | CInf s => Inf s
  | _ => NaN
  end.

Definition of_f64 (x : f64) : cell :=
  match x with
  | Fin q => CNum q
  | Inf s => CInf s
  | NaN => CNull
  end.

(** A frame: the column labels in order, and the rows, each a map from
    label to cell.  A label with no entry in a row reads as missing. *)
Record DataFrame : Type := mkDF {
  columns : list string;
  rows : list (gmap string cell)
}.

Definition cell_at (r : gmap string cell) (c : string) : cell :=
  default CNull (r !! c).

(** [df[c]]: the column as a series, [KeyError] when there is none. *)
Definition getitem (df : DataFrame) (c : string) : Result (list cell) :=
  if decide (c ∈ columns df) then Ok (map (fun r => cell_at r c) (rows df))
  else Raise (KeyError c).

(** [df[c] = values], row by row; [values] has one entry per row
    wherever the assignment is used. *)
Definition setitem (df : DataFrame) (c : string) (vs : list cell) : DataFrame :=
  mkDF (if decide (c ∈ columns df) then columns df else columns df ++ [c])
       (zip_with (fun r v => <[c := v]> r) (rows df) vs).

(** ** Schema validation *)

Definition REQUIRED_COLUMNS : gset string :=
  {[ "date"; "month"; "area"; "product";
     "sale_count"; "sale_amount"; "gst"; "net_value"; "profit" ]}.

(** [validate_data]: the set difference is computed and, when it is not
    empty, raised whole. *)
Definition validate_data (df : DataFrame) : Result unit :=
  let missing := REQUIRED_COLUMNS ∖ list_to_set (columns df) in
  if decide (missing = ∅) then Ok tt else Raise (MissingColumns missing).

(** ** Sums of a column *)

Definition is_null (c : cell) : bool :=
  match c with CNull => true | _ => false end.
Definition is_num (c : cell) : bool :=
  match c with CNum _ => true | _ => false end.
Definition is_str (c : cell) : bool :=
  match c with CStr _ => true | _ => false end.
Definition is_date (c : cell) : bool :=
  match c with CDate _ => true | _ => false end.

(** A whole number within the 64-bit range. *)
Definition is_int64 (c : cell) : bool :=
  match c with
  | CNum q => (Zpos (Qden q) =? 1) && (- 2 ^ 63 <=? Qnum q) && (Qnum q <? 2 ^ 63)
  | _ => false
  end.

(** What a binary64 column can hold. *)
Definition is_float (c : cell) : bool :=
  match c with CNum _ | CInf _ | CNull => true | _ => false end.

Inductive dtype : Type := Int64 | Float64 | Object.

#[global] Instance dtype_eq_decision : EqDecision dtype.
Proof. solve_decision. Defined.

Definition dtype_of (col : list cell) : dtype :=
  if forallb is_int64 col then Int64
  else if forallb is_float col then Float64
  else Object.

Definition cell_int (c : cell) : Z :=
  match c with CNum q => Qnum q | _ => 0 end.

Definition fillna0 (c : cell) : cell :=
  match c with CNull => CNum 0%Qc | _ => c end.

Definition is_whole (q : Qc) : bool := Zpos (Qden q) =? 1.

(** [a + b] between two Python objects: whole numbers add exactly, other
    numbers add as floats, text concatenates, and a number meeting text
    is a [TypeError]. *)
Definition py_add (a b : cell) : Result cell :=
  match a, b with
  | CStr s, CStr t => Ok (CStr (s ++ t)%string)
  | CNum x, CNum y =>
      if is_whole x && is_whole y then Ok (CNum (x + y)%Qc)
      else Ok (of_f64 (f64_add (rnd x) (rnd y)))
  | _, _ =>
      if is_float a && is_float b
      then Ok (of_f64 (f64_add (to_f64 a) (to_f64 b)))
      else Raise TypeError
  end.

(** [Series.sum()] with its defaults ([skipna=True], [min_count=0]):
    timestamps do not support the operation; in an integer column the
    sum wraps around; in a binary64 column missing entries count as zero
    and the additions round, in the order of [f64_sum]; in any other
    column the entries are reduced with [+] from the first entry on,
    missing ones as zero. *)
Definition Series_sum (cs : list cell) : Result cell :=
  if existsb is_date cs then Raise TypeError
  else match dtype_of cs with
       | Int64 => Ok (CNum (of_Z (wrap64 (Z_sum (map cell_int cs)))))
       | Float64 => Ok (of_f64 (f64_sum (map (fun c => to_f64 (fillna0 c)) cs)))
       | Object =>
           match map fillna0 cs with
           | [] => Ok (CNum 0%Qc)
           | c :: cs' => foldM py_add c cs'
           end
       end.

(** *** Numeric literals *)

Definition digit_val (c : ascii) : option Z :=
  let n := Z.of_N (N_of_ascii c) in
  if (48 <=? n) && (n <=? 57) then Some (n - 48) else None.

(** What [float()] and [int()] strip from both ends of ASCII text. *)
Definition is_space (c : ascii) : bool :=
  let n := Z.of_N (N_of_ascii c) in
  ((9 <=? n) && (n <=? 13)) || ((28 <=? n) && (n <=? 32)).

Fixpoint lstrip (l : list ascii) : list ascii :=
  match l with
  | c :: l' => if is_space c then lstrip l' else l
  | [] => []
  end.

Definition strip (l : list ascii) : list ascii :=
  rev (lstrip (rev (lstrip l))).

Definition lower_ascii (c : ascii) : ascii :=
  let n := N_of_ascii c in
  if ((65 <=? n) && (n <=? 90))%N then ascii_of_N (n + 32) else c.

Fixpoint lower (s : string) : string :=
  match s with
  | EmptyString => EmptyString
  | String c s' => String (lower_ascii c) (lower s')
  end.

(** A run of digits at the head, single underscores allowed between two
    digits: its value so far, how many digits were read, and what
    follows. *)
Fixpoint read_digits (l : list ascii) (acc : Z) (n : nat) : Z * nat * list ascii :=
  match l with
  | c :: l' =>
      match digit_val c with
      | Some d => read_digits l' (10 * acc + d) (S n)
      | None =>
          match n, l' with
          | S _, c' :: _ =>
              if Ascii.eqb c "_" && bool_decide (is_Some (digit_val c'))
              then read_digits l' acc n
              else (acc, n, l)
          | _, _ => (acc, n, l)
          end
      end
  | [] => (acc, n, [])
  end.

Definition read_sign (l : list ascii) : Z * list ascii :=
  match l with
  | "+"%char :: l' => (1, l')
  | "-"%char :: l' => (-1, l')
  | _ => (1, l)
  end.

Definition read_exponent (l : list ascii) : option Z :=
  match l with
  | [] => Some 0
  | c :: l' =>
      if (Ascii.eqb c "e" || Ascii.eqb c "E")%bool then
        let '(sg, l1) := read_sign l' in
        match read_digits l1 0 0 with
        | (_, O, _) => None
        | (e, _, []) => Some (sg * e)
        | _ => None
        end
      else None
  end.

Definition scale10 (m : Z) (e : Z) : Qc :=
  if 0 <=? e then of_Z (m * 10 ^ e) else num m (10 ^ (- e)).

(** [float(text)] on ASCII text: after the sign either [inf],
    [infinity] or [nan] in any case, or
    [digits [. [digits]] | . digits] with an optional exponent; the
    decimal is rounded once. *)
Definition read_float (l : list ascii) : option f64 :=
  let '(sg, l1) := read_sign (strip l) in
  let word := lower (string_of_list_ascii l1) in
  if String.eqb word "inf" || String.eqb word "infinity"
  then Some (Inf (sg <? 0))
  else if String.eqb word "nan" then Some NaN
  else
    let '(ip, ni, l2) := read_digits l1 0 0 in
    let '(m, nf, l3) :=
      match l2 with
      | "."%char :: l2' => read_digits l2' ip 0
      | _ => (ip, O, l2)
      end in
    match (ni + nf)%nat with
    | O => None
    | _ => e ← read_exponent l3; Some (rnd (scale10 (sg * m) (e - Z.of_nat nf)))
    end.

(** [int(text)] on ASCII text. *)
Definition read_int (l : list ascii) : option Z :=
  let '(sg, l1) := read_sign (strip l) in
  match read_digits l1 0 0 with
  | (_, O, _) => None
  | (n, _, []) => Some (sg * n)
  | _ => None
  end.

(** [float(x)] of a reduced value: a number is taken as the double it
    is, text is read as a literal and is a [ValueError] otherwise, an
    instant is a [TypeError]. *)
Definition py_float (c : cell) : Result f64 :=
  match c with
  | CNum q => Ok (rnd q)
  | CInf s => Ok (Inf s)
  | CNull => Ok NaN
  | CStr s => match read_float (list_ascii_of_string s) with
              | Some x => Ok x
              | None => Raise ValueError
              end
  | CDate _ => Raise TypeError
  end.

(** [int(x)]: a number is truncated towards zero, an infinity is an
    [OverflowError] and NaN a [ValueError]; text must be an integer
    literal. *)
Definition py_int (c : cell) : Result Z :=
  match c with
  | CNum q => Ok (Z.quot (Qnum q) (Zpos (Qden q)))
  | CInf _ => Raise OverflowError
  | CNull => Raise ValueError
  | CStr s => match read_int (list_ascii_of_string s) with
              | Some n => Ok n
              | None => Raise ValueError
              end
  | CDate _ => Raise TypeError
  end.

(** ** The summary (lines 96-101 and 177-182) *)

Record Summary : Type := mkSummary {
  total_sales : f64;
  total_profit : f64;
  total_units : Z;
  total_gst : f64
}.

#[global] Instance Summary_eq_decision : EqDecision Summary.
Proof. solve_decision. Defined.

Definition column_sum (df : DataFrame) (c : string) : Result cell :=
  col ← getitem df c; Series_sum col.

(** The four entries are evaluated in the order of the dictionary
    display; the first exception ends the evaluation. *)
Definition summarize (df : DataFrame) : Result Summary :=
  sales ← column_sum df "sale_amount" ≫= py_float;
  profit ← column_sum df "profit" ≫= py_float;
  units ← column_sum df "sale_count" ≫= py_int;
  gst ← column_sum df "gst" ≫= py_float;
  Ok (mkSummary sales profit units gst).

(** ** Grouped sums (lines 103-105, 121 and 183) *)

(** The order in which group keys come out: numbers by value, instants
    by time, text by code point, and text after everything else. *)
Definition key_leb (a b : cell) : bool :=
  match a, b with
  | CNum x, CNum y => Qc_leb x y
  | CInf s, (CNum _ | CInf _) => s || bool_decide (a = b)
  | CNum _, CInf s => negb s
  | CDate s, CDate t => s <=? t
  | CStr s, CStr t => String.leb s t
  | (CNum _ | CInf _ | CDate _), CStr _ => true
  | _, _ => false
  end.

Definition is_number (c : cell) : bool :=
  match c with CNum _ | CInf _ => true | _ => false end.

(** Numbers and instants cannot be compared with each other: sorting keys
    of both kinds is a [TypeError]. *)
Definition unorderable (ks : list cell) : bool :=
  existsb is_number ks && existsb is_date ks.

(** Insertion into a list kept ascending and free of duplicates. *)
Fixpoint insert_key (k : cell) (l : list cell) : list cell :=
  match l with
  | [] => [k]
  | k' :: l' =>
      if decide (k = k') then l
      else if key_leb k k' then k :: l
      else k' :: insert_key k l'
  end.

Definition group_keys (ks : list cell) : list cell :=
  foldr insert_key [] ks.

Definition group_values (pairs : list (cell * cell)) (k : cell) : list cell :=
  map snd (filter (fun p => p.1 = k) pairs).

Definition notna (c : cell) : bool := negb (is_null c).

(** The sum of one group, by the type of the whole column of values:
    64-bit integers wrap around; floats are added with compensation,
    missing entries left out; timestamps do not support the operation;
    anything else is reduced with [+] from the first entry that is not
    missing. *)
Definition group_reduce (col vs : list cell) : Result cell :=
  if forallb is_int64 col
  then Ok (CNum (of_Z (wrap64 (Z_sum (map cell_int vs)))))
  else if forallb is_float col
  then Ok (of_f64 (kahan (Fin 0%Qc) (Fin 0%Qc) (map to_f64 (filter notna vs))))
  else if forallb (fun c => is_date c || is_null c) col
  then Raise TypeError
  else match filter notna vs with
       | [] => Ok (CNum 0%Qc)
       | c :: cs => foldM py_add c cs
       end.

(** [df.groupby(key, as_index=False)[val].sum()], as the list of its
    records.  Rows whose key is missing are dropped ([dropna=True]); the
    groups come out in ascending key order ([sort=True]). *)
Definition groupby_sum (df : DataFrame) (key val : string)
  : Result (list (cell * cell)) :=
  ks ← getitem df key;
  vs ← getitem df val;
  let pairs := filter (fun p => is_null p.1 = false) (zip ks vs) in
  if unorderable (map fst pairs) then Raise TypeError
  else mapM (fun k => s ← group_reduce vs (group_values pairs k); Ok (k, s))
            (group_keys (map fst pairs)).

(** The three grouped series of the dashboard. *)
Definition group_sum (df : DataFrame) (key : string) : Result (list (cell * cell)) :=
  groupby_sum df key "sale_amount".

(** ** The interchange form (lines 113 and 118)

    [df.to_json(date_format="iso", orient="records")] writes one object
    per row; [pd.read_json] reads the objects back.  The model works on
    the parsed document, not on its characters: a number stands for the
    decimal literal that denotes it. *)

Inductive json : Type :=
| JNum (q : Qc)
| JStr (s : string)
| JIso (ms : Z)
    (** the ISO-8601 text of the instant [ms] milliseconds after the
        epoch, kept symbolic *)
| JNull.

Definition record : Type := list (string * json).

(** The encoder's fixed-notation path for a double, at its default
    [double_precision=10]: the integral part, then the fraction scaled
    by [1e10] in floating point and rounded to a whole number of units,
    a tie going up when the kept part is zero or odd; the carry into the
    integral part is taken only off a tie.  (Magnitudes above [1e16 - 1]
    or, when not zero, below [1e-15] take the encoder's exponent
    notation, which is outside this model.) *)
Definition encode_double (q : Qc) : Qc :=
  let n := Qnum q in
  let d := Zpos (Qden q) in
  let whole := Z.abs n / d in
  match rnd (num (Z.abs n mod d) d * of_Z (10 ^ 10))%Qc with
  | Fin tmp =>
      let frac := Qnum tmp / Zpos (Qden tmp) in
      let diff2 := 2 * (Qnum tmp mod Zpos (Qden tmp)) in
      let dt := Zpos (Qden tmp) in
      if dt <? diff2 then
        if 10 ^ 10 <=? frac + 1
        then of_Z (Z.sgn n * (whole + 1))
        else num (Z.sgn n * (whole * 10 ^ 10 + frac + 1)) (10 ^ 10)
      else if (diff2 =? dt) && ((frac =? 0) || Z.odd frac) then
        if 10 ^ 10 <=? frac + 1
        then num (Z.sgn n * (whole * 10 + 1)) 10
        else num (Z.sgn n * (whole * 10 ^ 10 + frac + 1)) (10 ^ 10)
      else num (Z.sgn n * (whole * 10 ^ 10 + frac)) (10 ^ 10)
  | _ => q
  end.

(** The least [k], at most [fuel] more than [k], with [q * 10^k] whole:
    the number of decimals of the literal. *)
Fixpoint decimals (fuel : nat) (k : Z) (q : Qc) : Z :=
  match fuel with
  | O => k
  | S fuel' => if 10 ^ k mod Zpos (Qden q) =? 0 then k
               else decimals fuel' (k + 1) q
  end.

(** The decoder on a literal: an integer literal is read exactly; of a
    literal with a fraction the digits before and after the point are
    read as two whole numbers, and the value is put together in floating
    point, with the tabulated double nearest to [10^-k]. *)
Definition decode_number (q : Qc) : cell :=
  if is_whole q then CNum q
  else
    let n := Qnum q in
    let d := Zpos (Qden q) in
    let k := decimals 15 0 q in
    let whole := Z.abs n / d in
    let frac := (Z.abs n mod d) * 10 ^ k / d in
    let v := f64_add (f64_of_Z whole)
                     (f64_mul (f64_of_Z frac) (rnd (num 1 (10 ^ k)))) in
    of_f64 (if n <? 0 then f64_opp v else v).

(** One cell of a column [col] on its way out.  Whole numbers of an
    integer column, and whole numbers next to text, are written as
    integers; other numbers go through the encoder for doubles; NaN and
    the infinities are written as [null]; instants are written at
    [date_unit="ms"]. *)
Definition to_json_cell (col : list cell) (c : cell) : json :=
  match c with
  | CNum q =>
      if is_whole q && negb (bool_decide (dtype_of col = Float64)) then JNum q
      else match rnd q with
           | Fin x => JNum (encode_double x)
           | _ => JNull
           end
  | CInf _ => JNull
  | CStr s => JStr s
  | CDate t => JIso (t / 1000000)
  | CNull => JNull
  end.

(** A column of the frame, read row by row. *)
Definition column (df : DataFrame) (c : string) : list cell :=
  map (fun r => cell_at r c) (rows df).

Definition to_json (df : DataFrame) : list record :=
  map (fun r => map (fun c => (c, to_json_cell (column df c) (cell_at r c)))
                    (columns df))
      (rows df).

(** The [/dashboard] route on the table read from the upload, up to the
    template call: validation, summary, grouped sums, and the table in
    its interchange form, which the page posts back to [/forecast]. *)
Record Dashboard : Type := mkDashboard {
  summary : Summary;
  area_sales : list (cell * cell);
  month_sales : list (cell * cell);
  product_sales : list (cell * cell);
  data : list record
}.

Definition dashboard (df : DataFrame) : Result Dashboard :=
  _ ← validate_data df;
  s ← summarize df;
  a ← group_sum df "area";
  m ← group_sum df "month";
  p ← group_sum df "product";
  Ok (mkDashboard s a m p (to_json df)).

Definition suffix_of (suf s : string) : bool :=
  String.prefix (String.rev suf) (String.rev s).

(** The labels [read_json] tries to read as dates
    ([convert_dates=True], [keep_default_dates=True]). *)
Definition is_date_like (c : string) : bool :=
  let l := lower c in
  suffix_of "_at" l || suffix_of "_time" l || String.eqb l "modified"
  || String.eqb l "date" || String.eqb l "datetime"
  || String.prefix "timestamp" l.

(** Labels in order of first appearance. *)
Fixpoint first_seen (seen : list string) (l : list string) : list string :=
  match l with
  | [] => []
  | x :: l' =>
      if decide (x ∈ seen) then first_seen seen l'
      else x :: first_seen (x :: seen) l'
  end.

(** [astype("float64")] on one entry of an object column: [float()] of
    the entry, [None] reading as NaN. *)
Definition to_float_cell (c : cell) : option cell :=
  match c with
  | CNum q => Some (of_f64 (rnd q))
  | CInf s => Some (CInf s)
  | CStr s => of_f64 <$> read_float (list_ascii_of_string s)
  | CNull => Some CNull
  | CDate _ => None
  end.

Definition is_instant (c : cell) : bool :=
  match c with CDate _ | CNull => true | _ => false end.

(** A column of what was read that is converted to numbers: it holds
    text, and every entry of it converts. *)
Definition coercible (raw : list (gmap string cell)) (c : string) : bool :=
  existsb (fun r => is_str (cell_at r c)) raw
  && forallb (fun r => bool_decide (is_Some (to_float_cell (cell_at r c)))) raw.

Inductive colour : Type := green | red.

#[global] Instance colour_eq_decision : EqDecision colour.
Proof. solve_decision. Defined.

Record LinearModel : Type := mkModel { coef : f64; intercept : f64 }.

#[global] Instance LinearModel_eq_decision : EqDecision LinearModel.
Proof. solve_decision. Defined.

Record DailyRow : Type := mkDaily {
  d_date : cell;
  d_amount : cell;
  d_day : Z
}.

#[global] Instance DailyRow_eq_decision : EqDecision DailyRow.
Proof. solve_decision. Defined.

(** One [plt.plot] call of the loop at lines 148-154. *)
Record Segment : Type := mkSegment {
  seg_dates : list timestamp;
  seg_values : list f64;
  seg_colour : colour
}.

#[global] Instance Segment_eq_decision : EqDecision Segment.
Proof. solve_decision. Defined.

Record Chart : Type := mkChart {
  historical : list (cell * cell);
  forecast_segments : list Segment;
  markers : list (timestamp * f64 * colour)
}.

Record Forecast : Type := mkForecast {
  forecast_data : list (Z * f64);
  chart : Chart;
  report_summary : Summary;
  report_area_sales : list (cell * cell)
}.

Section Forecast.

(** Three library functions stay parameters: the ISO-8601 rendering of
    an instant given in milliseconds (only that it is text matters), the
    date inference of [pd.to_datetime] on a series that holds anything
    but instants and missing values (for a date-like column this
    includes whatever [read_json] had already made of it), and the
    solver behind [LinearRegression.fit], which returns a slope and an
    intercept for the day indices and the amounts it is given. *)
Variable iso_text : Z -> string.
Variable infer_datetime : list cell -> Result (list (option timestamp)).
Variable lstsq : list Z -> list f64 -> LinearModel.

Definition of_json (c : string) (v : json) : cell :=
  match v with
  | JNum q => decode_number q
  | JStr s => CStr s
  | JIso ms => if is_date_like c then CDate (ms * 1000000)
               else CStr (iso_text ms)
  | JNull => CNull
  end.

Definition of_record (rec : record) : gmap string cell :=
  list_to_map (map (fun kv => (kv.1, of_json kv.1 kv.2)) rec).

(** [pd.read_json]: the columns are the keys in order of first
    appearance; a key absent from a record reads as missing; ISO text
    under a date-like label becomes an instant again; then every column
    that holds text and all of whose entries convert to a number is
    converted ([dtype=True]).  Other entries under a date-like label are
    left as they are. *)
Definition read_json (data : list record) : DataFrame :=
  let raw := map of_record data in
  mkDF (first_seen [] (concat (map (map fst) data)))
       (map (map_imap (fun c v =>
               Some (if coercible raw c then default v (to_float_cell v) else v)))
            raw).

(** A row of a table, written by [to_json] and read back, before the
    conversion of numeric-looking columns. *)
Definition round_trip_row (df : DataFrame) (r : gmap string cell)
  : gmap string cell :=
  of_record (map (fun c => (c, to_json_cell (column df c) (cell_at r c)))
                 (columns df)).

(** [pd.to_datetime(series)] (line 119). *)
Definition to_datetime (col : list cell) : Result (list cell) :=
  if forallb is_instant col then Ok col
  else ts ← infer_datetime col; Ok (map (from_option CDate CNull) ts).

(** ** The daily series (lines 121-123) *)

Fixpoint insert_row (p : cell * cell) (l : list (cell * cell)) : list (cell * cell) :=
  match l with
  | [] => [p]
  | p' :: l' => if key_leb p.1 p'.1 then p :: l else p' :: insert_row p l'
  end.

(** [sort_values("date")]. *)
Definition sort_values (l : list (cell * cell)) : list (cell * cell) :=
  foldr insert_row [] l.

(** [daily_sales["day"] = np.arange(len(daily_sales))]. *)
Definition with_day (l : list (cell * cell)) : list DailyRow :=
  imap (fun i p => mkDaily p.1 p.2 (Z.of_nat i)) l.

Definition time_series (df : DataFrame) : Result (list DailyRow) :=
  daily ← groupby_sum df "date" "sale_amount";
  Ok (with_day (sort_values daily)).

(** ** The fitted line (lines 126-127) *)

(** The target must be numeric and finite: text that reads as a number
    is converted; anything else, NaN and the infinities are a
    [ValueError]. *)
Definition as_float (c : cell) : Result f64 :=
  match to_float_cell c with
  | Some (CNum q) => Ok (Fin q)
  | _ => Raise ValueError
  end.

(** [LinearRegression().fit(X, y)]; no sample is a [ValueError]. *)
Definition fit (X : list Z) (y : list cell) : Result LinearModel :=
  ys ← mapM as_float y;
  match X with
  | [] => Raise ValueError
  | _ => Ok (lstsq X ys)
  end.

(** [model.predict] on one day index: the product with the slope is
    rounded, then the sum with the intercept. *)
Definition predict (m : LinearModel) (x : Z) : f64 :=
  f64_add (f64_mul (f64_of_Z x) (coef m)) (intercept m).

(** ** Extrapolation and chart (lines 130-174) *)

Definition arange (lo hi : Z) : list Z :=
  map (fun i => lo + Z.of_nat i) (seq 0 (Z.to_nat (hi - lo))).

Definition future_days : Z := 30.

(** [series.iloc[-1]]. *)
Definition iloc_last (l : list cell) : Result cell :=
  match last l with
  | Some c => Ok c
  | None => Raise IndexError
  end.

(** [t + pd.Timedelta(days=n)]: a sum past [Timestamp.max] is out of
    bounds. *)
Definition add_days (c : cell) (n : Z) : Result timestamp :=
  match c with
  | CDate t => if t + n * DAY <=? TIMESTAMP_MAX then Ok (t + n * DAY)
               else Raise OutOfBoundsDatetime
  | _ => Raise TypeError
  end.

(** [pd.date_range(start, periods=n)], one instant per day; the last of
    them must still be a timestamp. *)
Definition date_range (start : timestamp) (periods : Z)
  : Result (list timestamp) :=
  if start + (periods - 1) * DAY <=? TIMESTAMP_MAX
  then Ok (map (fun i => start + i * DAY) (arange 0 periods))
  else Raise OutOfBoundsDatetime.

(** [colors[i]]. *)
Definition colour_at (v : list f64) (i : nat) : colour :=
  if decide (i = 0%nat) then green
  else if f64_leb (nth (i - 1) v NaN) (nth i v NaN) then green
  else red.

Definition colours (v : list f64) : list colour :=
  map (colour_at v) (seq 0 (length v)).

Definition slice {A} (l : list A) (i j : nat) : list A :=
  take (j - i) (drop i l).

Definition segments (dates : list timestamp) (v : list f64) (cs : list colour)
  : list Segment :=
  map (fun i => mkSegment (slice dates i (i + 2)) (slice v i (i + 2))
                          (nth i cs green))
      (seq 0 (length v - 1)).

(** [strftime("%Y-%m-%d")] names a calendar day; the model keeps the
    number of that day, counted from the epoch. *)
Definition strftime_ymd (t : timestamp) : Z := t / DAY.

(** Lines 126-137 on a daily series. *)
Definition extrapolate (daily : list DailyRow)
  : Result (list timestamp * list f64) :=
  model ← fit (map d_day daily) (map d_amount daily);
  let n := Z.of_nat (length daily) in
  let future_X := arange n (n + future_days) in
  let forecast_values := map (predict model) future_X in
  lst ← iloc_last (map d_date daily);
  start ← add_days lst 1;
  forecast_dates ← date_range start future_days;
  Ok (forecast_dates, forecast_values).

Definition draw (daily : list DailyRow) (dates : list timestamp)
    (values : list f64) : Chart :=
  let cs := colours values in
  mkChart (map (fun r => (d_date r, d_amount r)) daily)
          (segments dates values cs)
          (zip (zip dates values) cs).

(** [f"{x:.2f}"]: a number is formatted (the digits are not modelled);
    text has no such format. *)
Definition format_2f (c : cell) : Result unit :=
  match c with
  | CStr _ => Raise ValueError
  | CDate _ => Raise TypeError
  | _ => Ok tt
  end.

(** [generate_pdf] (lines 32-82).  Of the document only what can stop
    its assembly is kept: every area total goes through [format_2f]. *)
Definition generate_pdf (s : Summary) (area_sales : list (cell * cell))
    (forecast_data : list (Z * f64)) : Result unit :=
  _ ← mapM (fun a => format_2f a.2) area_sales;
  Ok tt.

(** The [/forecast] route on the parsed form field. *)
Definition forecast (data : list record) : Result Forecast :=
  let df := read_json data in
  col ← getitem df "date";
  dates ← to_datetime col;
  let df := setitem df "date" dates in
  daily ← time_series df;
  '(forecast_dates, forecast_values) ← extrapolate daily;
  let ch := draw daily forecast_dates forecast_values in
  let forecast_data := zip (map strftime_ymd forecast_dates) forecast_values in
  s ← summarize df;
  a ← groupby_sum df "area" "sale_amount";
  _ ← generate_pdf s a forecast_data;
  Ok (mkForecast forecast_data ch s a).

End Forecast.
(** ** Well-typed tables

    The Record of the data model: a calendar date, three labels, a
    non-negative whole count and four amounts. *)

Definition is_label (c : cell) : bool := is_str c || is_num c.

Definition is_count (c : cell) : bool :=
  match c with
  | CNum q => (Zpos (Qden q) =? 1) && (0 <=? Qnum q)
  | _ => false
  end.

Definition typed_row (r : gmap string cell) : bool :=
  is_date (cell_at r "date")
  && is_label (cell_at r "month")
  && is_label (cell_at r "area")
  && is_label (cell_at r "product")
  && is_count (cell_at r "sale_count")
  && is_num (cell_at r "sale_amount")
  && is_num (cell_at r "gst")
  && is_num (cell_at r "net_value")
  && is_num (cell_at r "profit").

Definition valid_dataset (df : DataFrame) : Prop :=
  validate_data df = Ok tt /\ Forall (fun r => typed_row r = true) (rows df).

(** The value of a numeric cell; a missing one counts as zero. *)
Definition cell_num (c : cell) : Qc :=
  match c with CNum q => q | _ => 0%Qc end.

Definition is_num_or_null (c : cell) : bool := is_num c || is_null c.

(** The four columns the summary reads, in the order it reads them. *)
Definition numeric_columns : list string :=
  ["sale_amount"; "profit"; "sale_count"; "gst"].

(** A column of numbers and blanks only. *)
Definition numeric (col : list cell) : bool := forallb is_num_or_null col.

(** A column whose entries cannot be added up: it holds an instant, or it
    holds text next to a number or a blank. *)
Definition clash (col : list cell) : bool :=
  existsb is_date col || (existsb is_str col && existsb is_float col).

Definition numeric_or_clashing (df : DataFrame) (c : string) : Prop :=
  exists col, getitem df c = Ok col /\ (numeric col = true \/ clash col = true).

Definition clashing (df : DataFrame) (c : string) : Prop :=
  exists col, getitem df c = Ok col /\ clash col = true.

(** Two keys can be compared unless one is missing or one is a number
    and the other an instant. *)
Definition comparable (a b : cell) : Prop :=
  key_leb a b = true \/ key_leb b a = true.

(** Strictly before, in the order of group keys. *)
Definition key_lt (a b : cell) : Prop := key_leb a b = true /\ a <> b.

(** The dimensions the dashboard groups by. *)
Definition grouping_keys : list string := ["area"; "month"; "product"].

(** The (key, value) pairs a grouping works on: rows with a missing key
    are gone. *)
Definition keyed (df : DataFrame) (key val : string) : list (cell * cell) :=
  filter (fun p => is_null p.1 = false) (zip (column df key) (column df val)).

(** The whole-number total of the entries of one group. *)
Definition group_int (pairs : list (cell * cell)) (k : cell) : Z :=
  Z_sum (map cell_int (group_values pairs k)).

(** What the entries of one group add up to, in the arithmetic of the
    column [col] they are taken from: whole numbers of 64 bits wrap
    around, other numbers are doubles and are added with compensation,
    blanks left out. *)
Definition group_total (col : list cell) (pairs : list (cell * cell)) (k : cell)
  : cell :=
  if forallb is_int64 col
  then CNum (of_Z (wrap64 (group_int pairs k)))
  else of_f64 (kahan (Fin 0%Qc) (Fin 0%Qc)
                     (map to_f64 (filter notna (group_values pairs k)))).

(** A column as [pd.to_datetime] leaves it: instants and blanks. *)
Definition instants (col : list cell) : bool := forallb is_instant col.

(** The thirty instants and the thirty values of a forecast from a
    series of [n] days that ends at [t], under the line [m]. *)
Definition horizon_dates (t : timestamp) : list timestamp :=
  map (fun i => t + (i + 1) * DAY) (arange 0 future_days).

(** An instant with thirty days to go before the last one, as a check
    that runs. *)
Definition early (c : cell) : bool :=
  match c with
  | CDate t => t + 30 * DAY <=? TIMESTAMP_MAX
  | _ => true
  end.

(** A cell that holds a finite double. *)
Definition is_finite (c : cell) : bool :=
  match to_f64 c with Fin _ => true | _ => false end.

(** The value of the line with slope [a] and intercept [b] at the day
    index [x], as a double: one rounding for the product, one for the
    sum. *)
Definition line_value (a b : f64) (x : Z) : f64 :=
  f64_add (f64_mul (rnd (of_Z x)) a) b.

Definition horizon_values (m : LinearModel) (n : Z) : list f64 :=
  map (fun i => line_value (coef m) (intercept m) (n + i)) (arange 0 future_days).

(** ** What the interchange form carries unchanged *)

Definition is_ascii_text (s : string) : bool :=
  forallb (fun c => (N_of_ascii c <? 128)%N) (list_ascii_of_string s).

Definition reads_as_number (s : string) : bool :=
  bool_decide (is_Some (read_float (list_ascii_of_string s))).

(** A number of a column [col] that is read back as it was written:
    any entry of an integer column, and otherwise a double below [2^53]
    in magnitude that the decoder puts together again from the digits
    the encoder wrote. *)
Definition reads_back (col : list cell) (q : Qc) : bool :=
  forallb is_int64 col
  || ((Z.abs (Qnum q) <? 2 ^ 53 * Zpos (Qden q))
      && match to_json_cell col (CNum q) with
         | JNum q' => bool_decide (decode_number q' = CNum q)
         | _ => false
         end).

(** A cell of column [c] that survives the round trip: under a label
    that is not date-like, a number that is read back as written or
    ASCII text that does not read as a number; under a date-like label,
    an instant of whole milliseconds; or a blank. *)
Definition json_safe (c : string) (col : list cell) (v : cell) : bool :=
  match v with
  | CNum q => negb (is_date_like c) && reads_back col q
  | CInf _ => false
  | CStr s => negb (is_date_like c) && is_ascii_text s && negb (reads_as_number s)
  | CDate t => is_date_like c && (t mod 1000000 =? 0)
  | CNull => true
  end.

Definition json_safe_frame (df : DataFrame) : Prop :=
  forall c r, c ∈ columns df -> r ∈ rows df ->
    json_safe c (column df c) (cell_at r c) = true.

(** The two predicates on tables, as checks that run. *)
Definition valid_datasetb (df : DataFrame) : bool :=
  bool_decide (validate_data df = Ok tt) && forallb typed_row (rows df).

Definition json_safe_frameb (df : DataFrame) : bool :=
  forallb (fun c => forallb (fun r => json_safe c (column df c) (cell_at r c))
                            (rows df))
          (columns df).

(** ** Sample tables

    Two library parameters of the forecast route are never consulted on
    a table whose dates are instants in the [date] column; for runs on
    such tables they are filled with these.  The third, the solver, is
    filled with the line of least squares computed in exact arithmetic,
    its slope and its intercept rounded once. *)

Definition no_iso_text : Z -> string := fun _ => ""%string.
Definition no_inference : list cell -> Result (list (option timestamp)) :=
  fun _ => Raise ValueError.

Definition f64_val (x : f64) : Qc :=
  match x with Fin q => q | _ => 0%Qc end.

Definition mean (l : list Qc) : Qc :=
  (Qc_sum l / of_Z (Z.of_nat (length l)))%Qc.

Definition exact_lstsq (X : list Z) (y : list f64) : LinearModel :=
  let xs := map of_Z X in
  let ys := map f64_val y in
  let mx := mean xs in
  let my := mean ys in
  let sxx := Qc_sum (map (fun x => (x - mx) * (x - mx))%Qc xs) in
  let sxy := Qc_sum (zip_with (fun x y => (x - mx) * (y - my))%Qc xs ys) in
  let a := if decide (sxx = 0%Qc) then 0%Qc else (sxy / sxx)%Qc in
  mkModel (rnd a) (rnd (my - a * mx)%Qc).

Definition all_columns : list string :=
  ["date"; "month"; "area"; "product";
   "sale_count"; "sale_amount"; "gst"; "net_value"; "profit"].

(** One January sale of one pen. *)
Definition sale (date amount : cell) (area : string) : gmap string cell :=
  list_to_map
    [("date", date); ("month", CStr "Jan"); ("area", CStr area);
     ("product", CStr "Pen"); ("sale_count", CNum (of_Z 1));
     ("sale_amount", amount); ("gst", CNum (of_Z 18));
     ("net_value", CNum (of_Z 82)); ("profit", CNum (of_Z 10))].

Definition HOUR : Z := 3600 * 1000000000.

(** Midnight of the day numbered [d]; 19723 is 2024-01-01. *)
Definition midnight (d : Z) : timestamp := d * DAY.

(** Scenario B: 100 on 2024-01-01 and 200 on 2024-01-03. *)
Definition two_day_table : DataFrame :=
  mkDF all_columns
       [sale (CDate (midnight 19723)) (CNum (of_Z 100)) "North";
        sale (CDate (midnight 19725)) (CNum (of_Z 200)) "South"].

(** Its daily series (also Scenario C: 100 at index 0, 200 at index 1). *)
Definition two_day_series : list DailyRow :=
  [mkDaily (CDate (midnight 19723)) (CNum (of_Z 100)) 0;
   mkDaily (CDate (midnight 19725)) (CNum (of_Z 200)) 1].

(** A falling series: 200 at index 0, 100 at index 1. *)
Definition falling_series : list DailyRow :=
  [mkDaily (CDate (midnight 19723)) (CNum (of_Z 200)) 0;
   mkDaily (CDate (midnight 19725)) (CNum (of_Z 100)) 1].


(** Three days of sales of five quadrillion, the last one short by
    one. *)
Definition big_series : list DailyRow :=
  [mkDaily (CDate (midnight 19723)) (CNum (of_Z (5 * 10 ^ 15))) 0;
   mkDaily (CDate (midnight 19724)) (CNum (of_Z (5 * 10 ^ 15))) 1;
   mkDaily (CDate (midnight 19725)) (CNum (of_Z (5 * 10 ^ 15 - 1))) 2].

(** Two sales on 2024-01-01, at 09:00 and at 17:00. *)
Definition same_day_table : DataFrame :=
  mkDF all_columns
       [sale (CDate (midnight 19723 + 9 * HOUR)) (CNum (of_Z 100)) "North";
        sale (CDate (midnight 19723 + 17 * HOUR)) (CNum (of_Z 200)) "North"].

(** All nine columns and no row. *)
Definition empty_table : DataFrame := mkDF all_columns [].


Definition half_table : DataFrame :=
  mkDF all_columns
       [sale (CDate (midnight 19723)) (CNum (double 5 1)) "North"].

(** Three sales, of 0.1 in the North and of 0.2 and 0.3 in the South. *)
Definition tenths_table : DataFrame :=
  mkDF all_columns
       [sale (CDate (midnight 19723)) (CNum (double 1 1)) "North";
        sale (CDate (midnight 19724)) (CNum (double 2 1)) "South";
        sale (CDate (midnight 19725)) (CNum (double 3 1)) "South"].

(** One amount a number, the other the text "abc". *)
Definition mixed_amount_table : DataFrame :=
  mkDF all_columns
       [sale (CDate (midnight 19723)) (CNum (of_Z 100)) "North";
        sale (CDate (midnight 19725)) (CStr "abc") "South"].

(** Both amounts text that is no number, "abc" and "def". *)
Definition unreadable_amount_table : DataFrame :=
  mkDF all_columns
       [sale (CDate (midnight 19723)) (CStr "abc") "North";
        sale (CDate (midnight 19725)) (CStr "def") "South"].

(** One amount left blank. *)
Definition blank_amount_table : DataFrame :=
  mkDF all_columns
       [sale (CDate (midnight 19723)) (CNum (of_Z 100)) "North";
        sale (CDate (midnight 19725)) CNull "South"].

(** The product codes typed as text that reads as a number. *)
Definition coded_product_table : DataFrame :=
  mkDF all_columns
       [<["product" := CStr "007"]>
          (sale (CDate (midnight 19723)) (CNum (of_Z 100)) "North")].

(** One posted record without the [date] field, and one, dated
    2024-01-01, without the [sale_amount] field. *)
Definition undated_records : list record :=
  [[("area", JStr "North"); ("sale_amount", JNum (of_Z 100))]].

Definition unpriced_records : list record :=
  [[("date", JIso 1704067200000); ("area", JStr "North")]].

(** * Properties *)

(** Membership of a given label in a given list of labels. *)
Ltac elem_of_labels :=
  repeat first [apply list_elem_of_here | apply list_elem_of_further].

(** ** The result monad *)

Lemma bind_Ok {A B} (a : A) (f : A -> Result B) : (Ok a ≫= f) = f a.
Proof. reflexivity. Qed.

Lemma bind_Raise {A B} (e : exn) (f : A -> Result B) : (Raise e ≫= f) = Raise e.
Proof. reflexivity. Qed.

Lemma bind_Ok_inv {A B} (m : Result A) (f : A -> Result B) (b : B) :
  (m ≫= f) = Ok b -> exists a, m = Ok a /\ f a = Ok b.
Proof. destruct m as [e|a]; [discriminate|]. intros H. by exists a. Qed.

Lemma mapM_Ok {A B} (f : A -> Result B) (g : A -> B) (l : list A) :
  Forall (fun a => f a = Ok (g a)) l -> mapM f l = Ok (map g l).
Proof.
  induction 1 as [|a l Ha _ IH]; [done|].
  cbn [mapM map]. by rewrite Ha, bind_Ok, IH.
Qed.

(** ** Schema validation *)

Lemma difference_empty_iff (X Y : gset string) : X ∖ Y = ∅ <-> X ⊆ Y.
Proof.
  split.
  - intros He c Hc. destruct (decide (c ∈ Y)) as [|Hn]; [done|].
    assert (c ∈ X ∖ Y) as Hd by (apply elem_of_difference; done).
    rewrite He in Hd. by apply not_elem_of_empty in Hd.
  - intros Hs. apply set_eq. intros c.
    rewrite elem_of_difference. split; [|by intros ?%not_elem_of_empty].
    intros [Hc Hn]. destruct Hn. by apply Hs.
Qed.

Lemma validate_data_Ok_iff (df : DataFrame) :
  validate_data df = Ok tt <-> REQUIRED_COLUMNS ⊆ list_to_set (columns df).
Proof.
  unfold validate_data. rewrite <- difference_empty_iff.
  case_decide as Hm; [done|]. split; [discriminate|done].
Qed.

(** C3. [validate_data] succeeds exactly when every required column is
    among the table's columns (it returns nothing and leaves the table as
    it was); otherwise it raises the error that carries the whole set of
    missing required columns, every one of them and nothing else.  A
    table that lacks only [gst] gets the error naming [{gst}]. *)
Theorem validate_data_spec (df : DataFrame) :
  (validate_data df = Ok tt <-> REQUIRED_COLUMNS ⊆ list_to_set (columns df))
  /\ (validate_data df <> Ok tt ->
      exists missing : gset string,
        validate_data df = Raise (MissingColumns missing)
        /\ missing <> ∅
        /\ forall c, c ∈ missing <-> c ∈ REQUIRED_COLUMNS /\ c ∉ columns df)
  /\ ((forall c, c ∈ REQUIRED_COLUMNS -> c ∈ columns df <-> c <> "gst") ->
      validate_data df = Raise (MissingColumns {[ "gst" ]})).
Proof.
  split; [apply validate_data_Ok_iff|]. split.
  - unfold validate_data. case_decide as Hm; [done|]. intros _.
    eexists. split; [done|]. split; [done|].
    intros c. by rewrite elem_of_difference, elem_of_list_to_set.
  - intros Hcols. unfold validate_data.
    assert (REQUIRED_COLUMNS ∖ list_to_set (columns df) = ({[ "gst" ]} : gset string)) as ->.
    { apply set_eq. intros c. rewrite elem_of_difference, elem_of_list_to_set, elem_of_singleton.
      split.
      - intros [Hc Hn]. destruct (decide (c = "gst")) as [|Hne]; [done|].
        destruct Hn. by apply Hcols.
      - intros ->. assert ("gst" ∈ REQUIRED_COLUMNS) as Hg by (by vm_compute).
        split; [done|]. intros Hin. by apply (Hcols "gst"). }
    by case_decide.
Qed.

Lemma bind_Raise_inv {A B} (m : Result A) (f : A -> Result B) (e : exn) :
  (m ≫= f) = Raise e -> m = Raise e \/ exists a, m = Ok a /\ f a = Raise e.
Proof.
  destruct m as [e'|a]; [intros [= <-]; by left|]. intros H. right. by exists a.
Qed.

(** ** Sums of a series *)

Lemma forallb_elem_of {A} (f : A -> bool) (l : list A) (x : A) :
  forallb f l = true -> x ∈ l -> f x = true.
Proof.
  intros Hl Hx. apply list_elem_of_In in Hx.
  by eapply forallb_forall in Hl.
Qed.

Lemma forallb_intro {A} (f : A -> bool) (l : list A) :
  (forall x, x ∈ l -> f x = true) -> forallb f l = true.
Proof.
  intros H. apply forallb_forall. intros x Hx. apply H. by apply list_elem_of_In.
Qed.

Lemma forallb_impl {A} (f g : A -> bool) (l : list A) :
  (forall x, f x = true -> g x = true) -> forallb f l = true -> forallb g l = true.
Proof.
  intros Hfg Hl. apply forallb_intro. intros x Hx. apply Hfg.
  by eapply forallb_elem_of.
Qed.

Lemma is_float_of_f64 (x : f64) : is_float (of_f64 x) = true.
Proof. by destruct x. Qed.

Lemma numeric_is_float (l : list cell) :
  forallb is_num_or_null l = true -> forallb is_float l = true.
Proof. apply forallb_impl. by intros []. Qed.

Lemma numeric_no_date (l : list cell) :
  forallb is_float l = true -> existsb is_date l = false.
Proof.
  induction l as [|c l IH]; [done|]. cbn. intros [Hc Hl]%andb_prop.
  rewrite IH by done. by destruct c.
Qed.

(** A column of numbers and blanks has a sum, and the sum is a number
    (possibly an infinity, or NaN). *)
Lemma Series_sum_float (l : list cell) :
  forallb is_float l = true -> exists c, Series_sum l = Ok c /\ is_float c = true.
Proof.
  intros Hl. unfold Series_sum, dtype_of. rewrite numeric_no_date, Hl by done.
  destruct (forallb is_int64 l); eexists; (split; [done|]);
    [done|apply is_float_of_f64].
Qed.

(** In a column of whole numbers the sum is the sum of the integers,
    on 64 bits. *)
Lemma Series_sum_int64 (l : list cell) :
  forallb is_int64 l = true ->
  Series_sum l = Ok (CNum (of_Z (wrap64 (Z_sum (map cell_int l))))).
Proof.
  intros Hl. unfold Series_sum, dtype_of. rewrite Hl.
  rewrite numeric_no_date; [done|]. revert Hl. apply forallb_impl. by intros [].
Qed.

Lemma py_add_Ok (a b c : cell) :
  py_add a b = Ok c ->
  is_str b = is_str a /\ is_str c = is_str a /\ is_float c || is_str c = true.
Proof.
  assert (forall x, is_str (of_f64 x) = false) as Hs by (by intros []).
  assert (forall x, is_float (of_f64 x) || is_str (of_f64 x) = true) as Hf
    by (by intros []).
  destruct a as [x|s|u|t|], b as [y|s'|u'|t'|]; unfold py_add;
    cbn [is_float andb to_f64]; intros H; try discriminate H;
    try (injection H as <-; by rewrite ?Hf, ?Hs).
  destruct (is_whole x && is_whole y); injection H as <-; by rewrite ?Hf, ?Hs.
Qed.

Lemma py_add_error (a b : cell) (e : exn) : py_add a b = Raise e -> e = TypeError.
Proof.
  destruct a as [x|s|u|t|], b as [y|s'|u'|t'|]; unfold py_add;
    cbn [is_float andb to_f64]; intros H; try discriminate H;
    try (by injection H as <-).
  destruct (is_whole x && is_whole y); discriminate H.
Qed.

(** Once a number has met text, or text a number, the reduction has
    failed, whatever follows. *)
Lemma foldM_py_add_clash (a : cell) (l : list cell) :
  existsb (fun c => negb (Bool.eqb (is_str c) (is_str a))) l = true ->
  foldM py_add a l = Raise TypeError.
Proof.
  revert a. induction l as [|b l IH]; intros a Hex; [done|].
  cbn in Hex. cbn [foldM].
  destruct (py_add a b) as [e|c] eqn:Hab.
  - by apply py_add_error in Hab as ->.
  - rewrite bind_Ok. apply py_add_Ok in Hab as (Hb & Hc & _).
    rewrite Hb, Bool.eqb_reflx in Hex. cbn in Hex.
    apply IH. by rewrite Hc.
Qed.

Lemma forallb_fillna0 (l : list cell) :
  existsb is_date l = false ->
  forallb (fun c => is_float c || is_str c) (map fillna0 l) = true.
Proof.
  induction l as [|c l IH]; [done|]. cbn. intros [Hc Hl]%orb_false_elim.
  rewrite IH by done. by destruct c.
Qed.

Lemma clash_not_float (l : list cell) :
  existsb is_str l = true -> forallb is_float l = false.
Proof.
  induction l as [|c l IH]; [done|]. cbn.
  destruct c; cbn; try done; intros H; rewrite ?IH by done; by rewrite ?andb_false_r.
Qed.

Lemma Series_sum_clash (l : list cell) :
  clash l = true -> Series_sum l = Raise TypeError.
Proof.
  unfold clash, Series_sum. destruct (existsb is_date l) eqn:Hd; [done|].
  cbn [orb]. intros [Hs Hn]%andb_prop.
  unfold dtype_of. rewrite (clash_not_float l Hs).
  assert (forallb is_int64 l = false) as ->.
  { destruct (forallb is_int64 l) eqn:Hi; [|done].
    rewrite <- (clash_not_float l Hs). symmetry. revert Hi.
    apply forallb_impl. by intros []. }
  pose proof (forallb_fillna0 l Hd) as Hall.
  assert (existsb is_str (map fillna0 l) = true) as Hs'.
  { clear -Hs. induction l as [|c l IH]; [done|]. cbn in *.
    destruct c; cbn in *; auto. }
  assert (existsb is_float (map fillna0 l) = true) as Hn'.
  { clear -Hn. induction l as [|c l IH]; [done|]. cbn in *.
    destruct c; cbn in *; auto. }
  destruct (map fillna0 l) as [|a l']; [done|].
  cbn in Hall, Hs', Hn'. apply andb_prop in Hall as [Ha Hall].
  apply foldM_py_add_clash.
  destruct a; try discriminate; cbn in *.
  - clear -Hs'. induction l' as [|c l' IH]; [done|]. cbn in *.
    destruct c; cbn in *; auto.
  - clear -Hs'. induction l' as [|c l' IH]; [done|]. cbn in *.
    destruct c; cbn in *; auto.
  - clear -Hn' Hall. induction l' as [|c l' IH]; [done|]. cbn in *.
    apply andb_prop in Hall as [Hc Hall].
    destruct c; cbn in *; auto.
  - clear -Hs'. induction l' as [|c l' IH]; [done|]. cbn in *.
    destruct c; cbn in *; auto.
Qed.

(** ** The summary *)

Lemma column_sum_clash (df : DataFrame) (c : string) :
  clashing df c -> column_sum df c = Raise TypeError.
Proof.
  intros (col & Hg & Hc). unfold column_sum. rewrite Hg, bind_Ok.
  by apply Series_sum_clash.
Qed.

Lemma py_float_float (c : cell) : is_float c = true -> exists x, py_float c = Ok x.
Proof. destruct c; try done; intros _; by eexists. Qed.

Lemma column_sum_numeric (df : DataFrame) (c : string) (col : list cell) :
  getitem df c = Ok col -> numeric col = true ->
  exists v, column_sum df c = Ok v /\ is_float v = true
            /\ (forallb is_int64 col = true -> is_num v = true).
Proof.
  intros Hg Hn. unfold column_sum. rewrite Hg, bind_Ok.
  destruct (forallb is_int64 col) eqn:Hi.
  - rewrite Series_sum_int64 by done. by eexists.
  - destruct (Series_sum_float col) as (v & Hv & Hf); [by apply numeric_is_float|].
    by exists v.
Qed.

(** C9 (amended). When each of the four columns the summary reads holds
    only numbers and blanks, or else cannot be added up (an instant in it,
    or text next to a number or a blank), and at least one of them is of
    the second kind, [summarize] returns no summary: it raises a
    [TypeError], unless the sums of [sale_amount] and [profit] go
    through and the total of a [sale_count] column of doubles is an
    infinity or NaN, on which [int()] fails first, with an
    [OverflowError] or a [ValueError]. *)
Theorem summarize_type_clash (df : DataFrame) :
  Forall (numeric_or_clashing df) numeric_columns ->
  Exists (clashing df) numeric_columns ->
  exists e,
    summarize df = Raise e
    /\ (e = TypeError
        \/ ((e = OverflowError \/ e = ValueError)
            /\ ~ clashing df "sale_amount" /\ ~ clashing df "profit"
            /\ exists col, getitem df "sale_count" = Ok col
                 /\ numeric col = true /\ forallb is_int64 col = false)).
Proof.
  intros Hall Hex.
  unfold numeric_columns in *.
  repeat match goal with
         | H : Forall _ (_ :: _) |- _ => apply Forall_cons_1 in H as [? H]
         end.
  assert (forall c, numeric_or_clashing df c ->
            clashing df c
            \/ exists col v, getitem df c = Ok col /\ numeric col = true
                 /\ column_sum df c = Ok v /\ is_float v = true
                 /\ (forallb is_int64 col = true -> is_num v = true)) as Hcase.
  { intros c (col & Hg & [Hn|Hc]); [right|left].
    - destruct (column_sum_numeric df c col Hg Hn) as (v & ? & ? & ?).
      by exists col, v.
    - by exists col. }
  assert (forall c v, column_sum df c = Ok v -> ~ clashing df c) as Hno.
  { intros c v Hv Hc. by rewrite (column_sum_clash _ _ Hc) in Hv. }
  unfold summarize.
  destruct (Hcase "sale_amount" ltac:(done)) as [Hc|(c1 & v1 & _ & _ & Hv1 & Hf1 & _)].
  { exists TypeError. by rewrite (column_sum_clash _ _ Hc); auto. }
  rewrite Hv1. destruct (py_float_float v1 Hf1) as [x1 Hx1].
  cbn [mbind result_bind Ok]. unfold Ok in Hx1. rewrite Hx1.
  destruct (Hcase "profit" ltac:(done)) as [Hc|(c2 & v2 & _ & _ & Hv2 & Hf2 & _)].
  { exists TypeError. by rewrite (column_sum_clash _ _ Hc); auto. }
  rewrite Hv2. destruct (py_float_float v2 Hf2) as [x2 Hx2].
  cbn [mbind result_bind Ok]. unfold Ok in Hx2. rewrite Hx2.
  destruct (Hcase "sale_count" ltac:(done)) as [Hc|(c3 & v3 & Hg3 & Hn3 & Hv3 & Hf3 & Hi3)].
  { exists TypeError. by rewrite (column_sum_clash _ _ Hc); auto. }
  rewrite Hv3. cbn [mbind result_bind Ok].
  assert (forallb is_int64 c3 = false -> exists col, getitem df "sale_count" = Ok col
            /\ numeric col = true /\ forallb is_int64 col = false) as Hcol
    by (intros ?; by exists c3).
  destruct v3 as [q| | | |]; try discriminate Hf3; cbn [py_int].
  - destruct (Hcase "gst" ltac:(done)) as [Hc|(c4 & v4 & _ & _ & Hv4 & _)].
    { exists TypeError. by rewrite (column_sum_clash _ _ Hc); auto. }
    exfalso.
    repeat match goal with
           | H : Exists _ (_ :: _) |- _ => apply Exists_cons in H as [H|H]
           | H : Exists _ [] |- _ => by apply Exists_nil in H
           | H : clashing df ?c, Hq : column_sum df ?c = Ok _ |- _ =>
               exact (Hno _ _ Hq H)
           end.
  - exists OverflowError. split; [done|]. right. split; [by left|].
    split; [by eapply Hno|]. split; [by eapply Hno|]. apply Hcol.
    destruct (forallb is_int64 c3); [|done]. by discriminate Hi3.
  - exists ValueError. split; [done|]. right. split; [by right|].
    split; [by eapply Hno|]. split; [by eapply Hno|]. apply Hcol.
    destruct (forallb is_int64 c3); [|done]. by discriminate Hi3.
Qed.

(** ** The order of group keys *)

Lemma Qc_leb_le (x y : Qc) : Qc_leb x y = true <-> (x <= y)%Qc.
Proof.
  unfold Qc_leb. destruct (Qclt_le_dec y x) as [Hlt|Hle].
  - split; [discriminate|]. intros Hle. by apply Qcle_not_lt in Hle.
  - done.
Qed.

Lemma string_leb_trans (s1 s2 s3 : string) :
  String.leb s1 s2 = true -> String.leb s2 s3 = true -> String.leb s1 s3 = true.
Proof.
  intros H12 H23. apply Is_true_true.
  apply (@transitivity _ String.le _ s1 s2 s3); by apply Is_true_true.
Qed.

Lemma key_leb_trans (a b c : cell) :
  key_leb a b = true -> key_leb b c = true -> key_leb a c = true.
Proof.
  destruct a as [x|[]|s|t|], b as [y|[]|s'|t'|], c as [z|[]|s''|t''|];
    cbn; try done.
  - rewrite !Qc_leb_le. apply Qcle_trans.
  - apply string_leb_trans.
  - rewrite !Z.leb_le. lia.
Qed.

Lemma key_leb_antisym (a b : cell) :
  key_leb a b = true -> key_leb b a = true -> a = b.
Proof.
  destruct a as [x|[]|s|t|], b as [y|[]|s'|t'|]; cbn; try done.
  - rewrite !Qc_leb_le. intros. f_equal. by apply Qcle_antisym.
  - intros. f_equal. by apply String.leb_antisym.
  - rewrite !Z.leb_le. intros. f_equal. lia.
Qed.

Lemma comparable_spec (a b : cell) :
  is_null a = false -> is_null b = false ->
  (is_number a && is_date b = false) -> (is_date a && is_number b = false) ->
  comparable a b.
Proof.
  unfold comparable.
  destruct a as [x|[]|s|t|], b as [y|[]|s'|t'|]; cbn; try done;
    intros _ _ _ _; auto.
  - rewrite !Qc_leb_le. destruct (Qclt_le_dec x y) as [?%Qclt_le_weak|?]; auto.
  - apply String.leb_total.
  - rewrite !Z.leb_le. lia.
Qed.

Lemma key_lt_trans (a b c : cell) : key_lt a b -> key_lt b c -> key_lt a c.
Proof.
  intros [Hab Hne] [Hbc Hne']. split; [by eapply key_leb_trans|].
  intros ->. apply Hne. by apply key_leb_antisym.
Qed.

(** ** Group keys: ascending, without repetition, nothing lost *)

Lemma elem_of_insert_key (x k : cell) (l : list cell) :
  x ∈ insert_key k l <-> x = k \/ x ∈ l.
Proof.
  induction l as [|k' l IH]; cbn.
  - rewrite list_elem_of_singleton, elem_of_nil. tauto.
  - case_decide as Hk.
    { subst. rewrite elem_of_cons. tauto. }
    destruct (key_leb k k').
    { rewrite (elem_of_cons (k' :: l)). tauto. }
    rewrite elem_of_cons, IH, elem_of_cons. tauto.
Qed.

Lemma insert_key_sorted (k : cell) (l : list cell) :
  StronglySorted key_lt l ->
  Forall (comparable k) l ->
  StronglySorted key_lt (insert_key k l).
Proof.
  induction 1 as [|k' l Hs IH Hall]; intros Hc; cbn.
  - repeat constructor.
  - apply Forall_cons_1 in Hc as [Hk Hc].
    case_decide as Hne; [by constructor|].
    destruct (key_leb k k') eqn:Hle.
    + constructor; [by constructor|]. constructor; [done|].
      eapply Forall_impl; [exact Hall|]. intros x Hx.
      by apply (key_lt_trans _ k').
    + constructor; [by apply IH|].
      apply Forall_forall. intros x [->|Hx]%elem_of_insert_key.
      * split; [|done]. destruct Hk as [Hk|Hk]; [congruence|done].
      * by eapply Forall_forall in Hall.
Qed.

Lemma elem_of_group_keys (x : cell) (ks : list cell) :
  x ∈ group_keys ks <-> x ∈ ks.
Proof.
  induction ks as [|k ks IH]; [done|].
  change (group_keys (k :: ks)) with (insert_key k (group_keys ks)).
  rewrite elem_of_insert_key, IH, elem_of_cons. tauto.
Qed.

Lemma group_keys_sorted (ks : list cell) :
  (forall a b, a ∈ ks -> b ∈ ks -> comparable a b) ->
  StronglySorted key_lt (group_keys ks).
Proof.
  induction ks as [|k ks IH]; intros Hc; [constructor|].
  change (group_keys (k :: ks)) with (insert_key k (group_keys ks)).
  apply insert_key_sorted.
  - apply IH. intros a b Ha Hb. apply Hc; by right.
  - apply Forall_forall. intros x Hx. rewrite elem_of_group_keys in Hx.
    apply Hc; [by left|by right].
Qed.

Lemma key_lt_sorted_NoDup (l : list cell) : StronglySorted key_lt l -> NoDup l.
Proof.
  induction 1 as [|k l Hs IH Hall]; constructor; [|done].
  intros Hin. eapply Forall_forall in Hall; [|done]. by destruct Hall.
Qed.

(** ** Grouped sums *)

Lemma getitem_column (df : DataFrame) (c : string) :
  c ∈ columns df -> getitem df c = Ok (column df c).
Proof. intros Hc. unfold getitem. by case_decide. Qed.
Lemma elem_of_group_values (pairs : list (cell * cell)) (k v : cell) :
  v ∈ group_values pairs k -> v ∈ map snd pairs.
Proof.
  unfold group_values. intros ([k' v'] & -> & Hin)%list_elem_of_fmap.
  apply list_elem_of_filter in Hin as [_ Hin].
  apply list_elem_of_fmap. by exists (k', v').
Qed.

Lemma elem_of_keyed_snd (df : DataFrame) (key val : string) (v : cell) :
  v ∈ map snd (keyed df key val) -> v ∈ column df val.
Proof.
  intros ([k' v'] & -> & Hin)%list_elem_of_fmap.
  apply list_elem_of_filter in Hin as [_ Hin].
  by apply elem_of_zip_r in Hin.
Qed.


(** On a value column of numbers and blanks, with keys that can be
    ordered, the grouping succeeds and is what its description says: the
    distinct keys in ascending order, each with the total of its rows. *)
Lemma groupby_sum_numeric (df : DataFrame) (key val : string) :
  key ∈ columns df -> val ∈ columns df ->
  numeric (column df val) = true ->
  unorderable (map fst (keyed df key val)) = false ->
  groupby_sum df key val =
    Ok (map (fun k => (k, group_total (column df val) (keyed df key val) k))
            (group_keys (map fst (keyed df key val)))).
Proof.
  intros Hk Hv Hnum Hord. unfold groupby_sum.
  rewrite !getitem_column by done. rewrite !bind_Ok.
  fold (keyed df key val). rewrite Hord.
  apply mapM_Ok. apply Forall_forall. intros k _.
  unfold group_reduce, group_total. fold (column df val).
  rewrite (numeric_is_float _ Hnum).
  by destruct (forallb is_int64 (column df val)).
Qed.

(** ** Whole numbers *)

Lemma of_Z_num_den (z : Z) : Qnum (of_Z z) = z /\ Qden (of_Z z) = 1%positive.
Proof.
  unfold of_Z, Q2Qc. cbn [this]. rewrite Qred_identity; [done|].
  cbn. apply Z.gcd_1_r.
Qed.

Lemma cell_int_of_Z (z : Z) : cell_int (CNum (of_Z z)) = z.
Proof. cbn [cell_int]. by destruct (of_Z_num_den z) as [-> _]. Qed.

Lemma wrap64_range (z : Z) : - 2 ^ 63 <= wrap64 z < 2 ^ 63.
Proof.
  unfold wrap64. pose proof (Z.mod_pos_bound (z + 2 ^ 63) (2 ^ 64) ltac:(lia)).
  lia.
Qed.

Lemma wrap64_small (z : Z) : - 2 ^ 63 <= z < 2 ^ 63 -> wrap64 z = z.
Proof. intros Hz. unfold wrap64. rewrite Z.mod_small; lia. Qed.

Lemma wrap64_add (a b : Z) : wrap64 (wrap64 a + b) = wrap64 (a + b).
Proof.
  unfold wrap64. f_equal.
  replace ((a + 2 ^ 63) mod 2 ^ 64 - 2 ^ 63 + b + 2 ^ 63)
    with ((a + 2 ^ 63) mod 2 ^ 64 + b) by lia.
  rewrite Zplus_mod_idemp_l. f_equal. lia.
Qed.

Lemma wrap64_add_r (a b : Z) : wrap64 (a + wrap64 b) = wrap64 (a + b).
Proof. rewrite (Z.add_comm a), wrap64_add. f_equal. lia. Qed.

Lemma is_int64_wrap (z : Z) : is_int64 (CNum (of_Z (wrap64 z))) = true.
Proof.
  cbn [is_int64]. destruct (of_Z_num_den (wrap64 z)) as [-> ->].
  pose proof (wrap64_range z). apply andb_true_intro. split.
  - apply andb_true_intro. split; [done|]. apply Z.leb_le. lia.
  - apply Z.ltb_lt. lia.
Qed.

Lemma wrap64_sum {A} (f : A -> Z) (l : list A) :
  wrap64 (Z_sum (map (fun a => wrap64 (f a)) l)) = wrap64 (Z_sum (map f l)).
Proof.
  induction l as [|a l IH]; [done|]. cbn [map Z_sum foldr].
  fold (Z_sum (map (fun a => wrap64 (f a)) l)). fold (Z_sum (map f l)).
  rewrite wrap64_add, <- wrap64_add_r, IH, wrap64_add_r. done.
Qed.

Lemma Z_sum_zero {A} (l : list A) : Z_sum (map (fun _ => 0) l) = 0.
Proof. induction l as [|a l IH]; [done|]. cbn [map Z_sum foldr]. apply IH. Qed.

Lemma Z_sum_plus {A} (f g : A -> Z) (l : list A) :
  Z_sum (map (fun a => f a + g a) l) = Z_sum (map f l) + Z_sum (map g l).
Proof.
  induction l as [|a l IH]; [done|]. cbn [map Z_sum foldr].
  fold (Z_sum (map (fun a => f a + g a) l)). fold (Z_sum (map f l)).
  fold (Z_sum (map g l)). lia.
Qed.

Lemma Z_sum_indicator (a : cell) (v : Z) (K : list cell) :
  NoDup K -> a ∈ K ->
  Z_sum (map (fun k => if decide (a = k) then v else 0) K) = v.
Proof.
  induction 1 as [|k K Hk _ IH]; intros Ha; [by apply elem_of_nil in Ha|].
  cbn [map Z_sum foldr]. case_decide as Hak.
  - subst. rewrite (map_ext_in _ (fun _ => 0)).
    + fold (Z_sum (map (fun _ : cell => 0) K)). rewrite Z_sum_zero. lia.
    + intros k' Hk'%list_elem_of_In. case_decide; [congruence|done].
  - apply elem_of_cons in Ha as [?|Ha]; [done|].
    fold (Z_sum (map (fun k => if decide (a = k) then v else 0) K)).
    rewrite IH by done. lia.
Qed.

Lemma group_int_cons (p : cell * cell) (pairs : list (cell * cell)) (k : cell) :
  group_int (p :: pairs) k =
    (if decide (p.1 = k) then cell_int p.2 else 0) + group_int pairs k.
Proof.
  unfold group_int, group_values. rewrite filter_cons.
  case_decide; cbn [map Z_sum foldr]; done.
Qed.

(** No row is lost and none is counted twice: over keys without
    repetition that cover the pairs, the group totals add up to the total
    of all values. *)
Lemma group_ints_sum (pairs : list (cell * cell)) (K : list cell) :
  NoDup K -> (forall p, p ∈ pairs -> p.1 ∈ K) ->
  Z_sum (map (group_int pairs) K) = Z_sum (map cell_int (map snd pairs)).
Proof.
  intros HK. induction pairs as [|p pairs IH]; intros Hcover.
  - cbn [map Z_sum foldr]. by rewrite <- (Z_sum_zero K).
  - rewrite (map_ext _ _ (group_int_cons p pairs)).
    rewrite (Z_sum_plus (fun k => if decide (p.1 = k) then cell_int p.2 else 0)).
    rewrite Z_sum_indicator; [|done|apply Hcover; by left].
    rewrite IH; [done|]. intros q Hq. apply Hcover. by right.
Qed.

(** ** Valid tables *)
Lemma valid_columns (df : DataFrame) (c : string) :
  valid_dataset df -> c ∈ REQUIRED_COLUMNS -> c ∈ columns df.
Proof.
  intros [Hv _] Hc. apply validate_data_Ok_iff in Hv.
  apply Hv in Hc. by apply elem_of_list_to_set in Hc.
Qed.

Lemma typed_row_inv (r : gmap string cell) :
  typed_row r = true ->
  is_date (cell_at r "date") = true
  /\ is_label (cell_at r "month") = true
  /\ is_label (cell_at r "area") = true
  /\ is_label (cell_at r "product") = true
  /\ is_count (cell_at r "sale_count") = true
  /\ is_num (cell_at r "sale_amount") = true
  /\ is_num (cell_at r "gst") = true
  /\ is_num (cell_at r "net_value") = true
  /\ is_num (cell_at r "profit") = true.
Proof. unfold typed_row. rewrite !andb_true_iff. tauto. Qed.

Lemma valid_column (df : DataFrame) (c : string) (P : cell -> bool) :
  valid_dataset df ->
  (forall r, typed_row r = true -> P (cell_at r c) = true) ->
  forallb P (column df c) = true.
Proof.
  intros [_ Hrows] HP. apply forallb_intro.
  intros v (r & -> & Hr)%list_elem_of_fmap.
  apply HP. by eapply Forall_forall in Hrows.
Qed.

Lemma is_count_num (c : cell) : is_count c = true -> is_num c = true.
Proof. by destruct c. Qed.

Lemma is_num_numeric (c : cell) : is_num c = true -> is_num_or_null c = true.
Proof. by destruct c. Qed.

Lemma valid_numeric (df : DataFrame) (c : string) :
  valid_dataset df -> c ∈ numeric_columns -> numeric (column df c) = true.
Proof.
  intros Hv Hc. apply valid_column; [done|]. intros r Hr%typed_row_inv.
  apply is_num_numeric.
  unfold numeric_columns in Hc.
  repeat (apply elem_of_cons in Hc as [->|Hc]; [first [tauto|apply is_count_num; tauto]|]).
  by apply elem_of_nil in Hc.
Qed.

Lemma valid_labels (df : DataFrame) (key : string) :
  valid_dataset df -> key ∈ grouping_keys -> forallb is_label (column df key) = true.
Proof.
  intros Hv Hc. apply valid_column; [done|]. intros r Hr%typed_row_inv.
  unfold grouping_keys in Hc.
  repeat (apply elem_of_cons in Hc as [->|Hc]; [tauto|]).
  by apply elem_of_nil in Hc.
Qed.

(** ** Label keys *)

Lemma filter_all {A} (P : A -> Prop) `{!forall x, Decision (P x)} (l : list A) :
  Forall P l -> filter P l = l.
Proof.
  induction 1 as [|x l Hx _ IH]; [done|].
  by rewrite filter_cons_True, IH.
Qed.

Lemma length_column (df : DataFrame) (c : string) :
  length (column df c) = length (rows df).
Proof. unfold column. by rewrite length_map. Qed.

Lemma label_not_null (c : cell) : is_label c = true -> is_null c = false.
Proof. by destruct c. Qed.

Lemma labels_keyed (df : DataFrame) (key val : string) :
  forallb is_label (column df key) = true ->
  keyed df key val = zip (column df key) (column df val).
Proof.
  intros Hl. unfold keyed. apply filter_all.
  apply Forall_forall. intros [k v] Hin. cbn.
  apply elem_of_zip_l in Hin. apply label_not_null. by eapply forallb_elem_of.
Qed.

Lemma labels_keyed_fst (df : DataFrame) (key val : string) :
  forallb is_label (column df key) = true ->
  map fst (keyed df key val) = column df key.
Proof.
  intros Hl. rewrite labels_keyed by done.
  apply fst_zip. by rewrite !length_column.
Qed.

Lemma labels_keyed_snd (df : DataFrame) (key val : string) :
  forallb is_label (column df key) = true ->
  map snd (keyed df key val) = column df val.
Proof.
  intros Hl. rewrite labels_keyed by done.
  apply snd_zip. by rewrite !length_column.
Qed.

Lemma labels_orderable (ks : list cell) :
  forallb is_label ks = true -> unorderable ks = false.
Proof.
  intros Hl. unfold unorderable. apply andb_false_iff. right.
  induction ks as [|k ks IH]; [done|]. cbn in *.
  apply andb_prop in Hl as [Hk Hl]. rewrite IH by done. by destruct k.
Qed.

Lemma labels_comparable (ks : list cell) (a b : cell) :
  forallb is_label ks = true -> a ∈ ks -> b ∈ ks -> comparable a b.
Proof.
  intros Hl Ha Hb.
  pose proof (forallb_elem_of _ _ _ Hl Ha) as Ha'.
  pose proof (forallb_elem_of _ _ _ Hl Hb) as Hb'.
  apply comparable_spec; by destruct a, b.
Qed.

(** On a valid table, grouping by one of the three dimensions succeeds
    with one entry per distinct label. *)
Lemma group_sum_valid (df : DataFrame) (key : string) :
  valid_dataset df -> key ∈ grouping_keys ->
  group_sum df key =
    Ok (map (fun k => (k, group_total (column df "sale_amount")
                                      (keyed df key "sale_amount") k))
            (group_keys (column df key))).
Proof.
  intros Hv Hk. unfold group_sum.
  pose proof (valid_labels df key Hv Hk) as Hl.
  rewrite groupby_sum_numeric.
  - by rewrite labels_keyed_fst.
  - apply valid_columns; [done|]. unfold grouping_keys in Hk.
    repeat (apply elem_of_cons in Hk as [->|Hk]; [by vm_compute|]).
    by apply elem_of_nil in Hk.
  - apply valid_columns; [done|]. by vm_compute.
  - apply valid_numeric; [done|]. unfold numeric_columns. elem_of_labels.
  - rewrite labels_keyed_fst by done. by apply labels_orderable.
Qed.

Lemma py_int_of_Z (z : Z) : py_int (CNum (of_Z z)) = Ok z.
Proof.
  cbn [py_int]. destruct (of_Z_num_den z) as [-> ->]. by rewrite Z.quot_1_r.
Qed.

(** On a valid table whose amounts and counts are whole numbers of 64
    bits the summary is computed; its sales total is the double nearest
    to the 64-bit sum of the amounts, its units the 64-bit sum of the
    counts. *)
Lemma summarize_valid_int (df : DataFrame) :
  valid_dataset df ->
  forallb is_int64 (column df "sale_amount") = true ->
  forallb is_int64 (column df "sale_count") = true ->
  exists s,
    summarize df = Ok s
    /\ total_sales s =
         rnd (of_Z (wrap64 (Z_sum (map cell_int (column df "sale_amount")))))
    /\ total_units s = wrap64 (Z_sum (map cell_int (column df "sale_count"))).
Proof.
  intros Hv Ha Hc. unfold summarize, column_sum.
  rewrite !getitem_column by (apply valid_columns; [done|by vm_compute]).
  rewrite !bind_Ok. rewrite (Series_sum_int64 _ Ha), (Series_sum_int64 _ Hc).
  rewrite (bind_Ok _ py_int), py_int_of_Z.
  destruct (Series_sum_float (column df "profit")) as (v2 & -> & Hf2).
  { apply numeric_is_float, valid_numeric; [done|].
    unfold numeric_columns. elem_of_labels. }
  destruct (Series_sum_float (column df "gst")) as (v4 & -> & Hf4).
  { apply numeric_is_float, valid_numeric; [done|].
    unfold numeric_columns. elem_of_labels. }
  destruct (py_float_float v2 Hf2) as [x2 Hx2].
  destruct (py_float_float v4 Hf4) as [x4 Hx4].
  rewrite (bind_Ok v2 py_float), Hx2, (bind_Ok v4 py_float), Hx4.
  eexists. split; [reflexivity|]. by split.
Qed.

(** C7 (amended). On every valid table whose sale amounts and counts are
    whole numbers of 64 bits, and for each of the three grouping
    dimensions, [group_sum] and [summarize] both return; each group
    carries the 64-bit sum of its rows' amounts, [total_sales] is the
    64-bit sum of all amounts as a double, and adding up the per-group
    amounts gives [total_sales]: no row is lost or counted twice by the
    grouping. *)
Theorem group_sum_adds_up_to_total_sales (df : DataFrame) (key : string) :
  valid_dataset df -> key ∈ grouping_keys ->
  forallb is_int64 (column df "sale_amount") = true ->
  forallb is_int64 (column df "sale_count") = true ->
  exists gs s,
    group_sum df key = Ok gs
    /\ summarize df = Ok s
    /\ (forall k v, (k, v) ∈ gs ->
          v = CNum (of_Z (wrap64 (group_int (keyed df key "sale_amount") k))))
    /\ total_sales s =
         rnd (of_Z (wrap64 (Z_sum (map cell_int (column df "sale_amount")))))
    /\ (Series_sum (map snd gs) ≫= py_float) = Ok (total_sales s).
Proof.
  intros Hv Hk Ha Hc.
  destruct (summarize_valid_int df Hv Ha Hc) as (s & Hs & Hsales & _).
  pose proof (valid_labels df key Hv Hk) as Hl.
  eexists _, s. split; [by apply group_sum_valid|]. split; [exact Hs|].
  unfold group_total. rewrite Ha. split; [|split; [exact Hsales|]].
  - intros k v (k' & [= -> ->] & _)%list_elem_of_fmap. done.
  - rewrite map_map. cbn [snd].
    rewrite Series_sum_int64.
    2:{ apply forallb_intro. intros v (k & -> & _)%list_elem_of_fmap.
        apply is_int64_wrap. }
    rewrite bind_Ok. cbn [py_float]. rewrite Hsales. do 3 f_equal.
    rewrite map_map.
    rewrite (map_ext _ (fun k => wrap64 (group_int (keyed df key "sale_amount") k)))
      by (intros k; apply cell_int_of_Z).
    rewrite wrap64_sum. f_equal.
    rewrite group_ints_sum.
    + by rewrite labels_keyed_snd.
    + apply key_lt_sorted_NoDup, group_keys_sorted.
      intros a b. by apply labels_comparable.
    + intros p Hp. apply elem_of_group_keys.
      rewrite <- (labels_keyed_fst df key "sale_amount") by done.
      apply list_elem_of_fmap. by exists p.
Qed.

(** C10. On every valid table and for each of the three grouping
    dimensions, [group_sum] returns its entries in strictly ascending
    order of the group key, one entry for each label that occurs in the
    column; being a function of the table, it returns the same ordered
    series whenever it is run on the same table. *)
Theorem group_sum_ascending (df : DataFrame) (key : string) :
  valid_dataset df -> key ∈ grouping_keys ->
  exists gs,
    group_sum df key = Ok gs
    /\ StronglySorted key_lt (map fst gs)
    /\ (forall k, k ∈ map fst gs <-> k ∈ column df key)
    /\ (forall gs', group_sum df key = Ok gs' -> gs' = gs).
Proof.
  intros Hv Hk. pose proof (valid_labels df key Hv Hk) as Hl.
  eexists. split; [by apply group_sum_valid|].
  rewrite map_map. cbn [fst]. rewrite map_id.
  split; [|split].
  - apply group_keys_sorted. intros a b. by apply labels_comparable.
  - intros k. apply elem_of_group_keys.
  - intros gs' Hgs'. rewrite group_sum_valid in Hgs' by done. by injection Hgs'.
Qed.

(** ** The daily series *)

Lemma zip_columns (df : DataFrame) (c1 c2 : string) :
  zip (column df c1) (column df c2) =
  map (fun r => (cell_at r c1, cell_at r c2)) (rows df).
Proof. unfold column. induction (rows df) as [|r l IH]; cbn; [done|]. by rewrite IH. Qed.

Lemma elem_of_keyed_fst (df : DataFrame) (key val : string) (k : cell) :
  k ∈ map fst (keyed df key val) <-> k ∈ column df key /\ k <> CNull.
Proof.
  unfold keyed. rewrite zip_columns. split.
  - intros ([k' v] & -> & [Hn Hin]%list_elem_of_filter)%list_elem_of_fmap.
    apply list_elem_of_fmap in Hin as (r & [= -> ->] & Hr). cbn in *. split.
    + apply list_elem_of_fmap. by exists r.
    + intros Hnull. by rewrite Hnull in Hn.
  - intros [(r & -> & Hr)%list_elem_of_fmap Hn].
    apply list_elem_of_fmap. exists (cell_at r key, cell_at r val). split; [done|].
    apply list_elem_of_filter. split.
    + cbn. by destruct (cell_at r key).
    + apply list_elem_of_fmap. by exists r.
Qed.

Lemma instant_keys_dates (df : DataFrame) (val : string) (k : cell) :
  instants (column df "date") = true ->
  k ∈ map fst (keyed df "date" val) -> is_date k = true.
Proof.
  intros Hi [Hk Hn]%elem_of_keyed_fst.
  pose proof (forallb_elem_of _ _ _ Hi Hk). by destruct k.
Qed.

Lemma dates_orderable (ks : list cell) :
  (forall k, k ∈ ks -> is_date k = true) -> unorderable ks = false.
Proof.
  intros Hd. unfold unorderable. apply andb_false_iff. left.
  induction ks as [|k ks IH]; [done|]. cbn.
  rewrite IH by (intros; apply Hd; by right).
  specialize (Hd k ltac:(by left)). by destruct k.
Qed.

Lemma dates_comparable (a b : cell) :
  is_date a = true -> is_date b = true -> comparable a b.
Proof. intros Ha Hb. apply comparable_spec; by destruct a, b. Qed.

(** Sorting what is already in ascending key order changes nothing. *)
Lemma sort_values_sorted (l : list (cell * cell)) :
  StronglySorted key_lt (map fst l) -> sort_values l = l.
Proof.
  unfold sort_values. induction l as [|p l IH]; [done|].
  cbn [map foldr]. intros Hs. apply StronglySorted_inv in Hs as [Hs Hall].
  rewrite IH by done. destruct l as [|p' l]; [done|].
  cbn [insert_row]. apply Forall_cons_1 in Hall as [[Hle _] _].
  cbn [map] in Hle. by rewrite Hle.
Qed.

Lemma with_day_lookup (l : list (cell * cell)) (i : nat) (r : DailyRow) :
  with_day l !! i = Some r <->
  exists p, l !! i = Some p /\ r = mkDaily p.1 p.2 (Z.of_nat i).
Proof.
  unfold with_day. rewrite list_lookup_imap.
  destruct (l !! i) as [p|]; cbn; [|naive_solver].
  split; [intros [= <-]; eauto|]. by intros (p' & [= <-] & ->).
Qed.

Lemma with_day_dates (l : list (cell * cell)) : map d_date (with_day l) = map fst l.
Proof.
  unfold with_day. apply list_eq. intros i.
  rewrite !list_lookup_fmap, list_lookup_imap. by destruct (l !! i).
Qed.

(** The daily series of a table whose dates are instants and whose
    amounts are numbers. *)
Lemma time_series_built (df : DataFrame) :
  "date" ∈ columns df -> "sale_amount" ∈ columns df ->
  instants (column df "date") = true ->
  numeric (column df "sale_amount") = true ->
  exists ds,
    time_series df = Ok ds
    /\ StronglySorted key_lt (map d_date ds)
    /\ (forall k, k ∈ map d_date ds <-> k ∈ column df "date" /\ k <> CNull)
    /\ (forall r, r ∈ ds ->
          d_amount r = group_total (column df "sale_amount")
                                   (keyed df "date" "sale_amount") (d_date r))
    /\ (forall i r, ds !! i = Some r -> d_day r = Z.of_nat i).
Proof.
  intros Hd Ha Hi Hn. unfold time_series.
  rewrite groupby_sum_numeric; [|done..|].
  2:{ apply dates_orderable. intros k. by apply instant_keys_dates. }
  rewrite bind_Ok. eexists. split; [done|].
  set (pairs := keyed df "date" "sale_amount").
  set (L := map _ (group_keys _)).
  assert (map fst L = group_keys (map fst pairs)) as HL.
  { unfold L. rewrite map_map. cbn [fst]. by rewrite map_id. }
  assert (StronglySorted key_lt (map fst L)) as Hs.
  { rewrite HL. apply group_keys_sorted. intros a b Ha' Hb'.
    apply dates_comparable; by eapply instant_keys_dates. }
  rewrite sort_values_sorted by done. rewrite with_day_dates.
  split; [done|]. split; [|split].
  - intros k. rewrite HL, elem_of_group_keys. apply elem_of_keyed_fst.
  - intros r (i & Hr)%list_elem_of_lookup.
    apply with_day_lookup in Hr as (p & Hp & ->). cbn.
    apply list_elem_of_lookup_2 in Hp. unfold L in Hp.
    by apply list_elem_of_fmap in Hp as (k & -> & _).
  - intros i r Hr. by apply with_day_lookup in Hr as (p & Hp & ->).
Qed.

(** C2 (amended). When the [date] column holds instants (or blanks) and
    the amounts are numbers (or blanks), the daily series is built and
    has one entry per distinct instant of the column, rows with exactly
    the same instant added together (in the arithmetic of the column:
    whole numbers on 64 bits, doubles otherwise), in strictly ascending
    order of the instant, numbered 0, 1, 2, ... in that order.  Nothing
    is said about the time of day: two instants of one calendar day stay
    two entries. *)
Theorem time_series_spec (df : DataFrame) :
  "date" ∈ columns df -> "sale_amount" ∈ columns df ->
  instants (column df "date") = true ->
  numeric (column df "sale_amount") = true ->
  exists ds,
    time_series df = Ok ds
    /\ StronglySorted key_lt (map d_date ds)
    /\ (forall k, k ∈ map d_date ds <-> k ∈ column df "date" /\ k <> CNull)
    /\ (forall r, r ∈ ds ->
          d_amount r = group_total (column df "sale_amount")
                                   (keyed df "date" "sale_amount") (d_date r))
    /\ (forall i r, ds !! i = Some r -> d_day r = Z.of_nat i).
Proof. apply time_series_built. Qed.



(** ** The fitted line and its extrapolation *)

Lemma arange_shift (n k : Z) :
  0 <= k -> arange n (n + k) = map (fun i => n + i) (arange 0 k).
Proof.
  intros Hk. unfold arange. rewrite map_map.
  replace (n + k - n) with k by lia. replace (k - 0) with k by lia.
  apply map_ext. intros i. lia.
Qed.

Lemma length_arange (lo hi : Z) : length (arange lo hi) = Z.to_nat (hi - lo).
Proof. unfold arange. by rewrite length_map, length_seq. Qed.

Lemma arange_lookup (lo hi : Z) (i : nat) :
  (i < Z.to_nat (hi - lo))%nat -> arange lo hi !! i = Some (lo + Z.of_nat i).
Proof.
  intros Hi. unfold arange. rewrite list_lookup_fmap, lookup_seq_lt by done. done.
Qed.

Lemma strftime_ymd_add (t k : Z) : strftime_ymd (t + k * DAY) = strftime_ymd t + k.
Proof. unfold strftime_ymd. by rewrite Z.div_add. Qed.


Lemma horizon_values_lookup (m : LinearModel) (n : Z) (i : nat) :
  (i < 30)%nat ->
  horizon_values m n !! i
  = Some (line_value (coef m) (intercept m) (n + Z.of_nat i)).
Proof.
  intros Hi. unfold horizon_values.
  rewrite list_lookup_fmap, arange_lookup by (unfold future_days; lia). done.
Qed.

Lemma horizon_dates_lookup (t : timestamp) (i : nat) :
  (i < 30)%nat ->
  horizon_dates t !! i = Some (t + (Z.of_nat i + 1) * DAY).
Proof.
  intros Hi. unfold horizon_dates.
  rewrite list_lookup_fmap, arange_lookup by (unfold future_days; lia). done.
Qed.

Lemma length_horizon_values (m : LinearModel) (n : Z) :
  length (horizon_values m n) = 30%nat.
Proof. unfold horizon_values. by rewrite length_map, length_arange. Qed.

Lemma length_horizon_dates (t : timestamp) : length (horizon_dates t) = 30%nat.
Proof. unfold horizon_dates. by rewrite length_map, length_arange. Qed.

Lemma date_range_horizon (t : timestamp) :
  t + 30 * DAY <= TIMESTAMP_MAX ->
  date_range (t + 1 * DAY) future_days = Ok (horizon_dates t).
Proof.
  intros Ht. unfold date_range, future_days.
  destruct (Z.leb_spec (t + 1 * DAY + (30 - 1) * DAY) TIMESTAMP_MAX); [|lia].
  unfold Ok. f_equal. unfold horizon_dates, future_days.
  apply map_ext. intros i. lia.
Qed.

Lemma date_range_late (t : timestamp) :
  TIMESTAMP_MAX < t + 30 * DAY ->
  date_range (t + 1 * DAY) future_days = Raise OutOfBoundsDatetime.
Proof.
  intros Ht. unfold date_range, future_days.
  destruct (Z.leb_spec (t + 1 * DAY + (30 - 1) * DAY) TIMESTAMP_MAX); [lia|done].
Qed.

Lemma as_float_finite (c : cell) :
  is_finite c = true -> exists q, as_float c = Ok (Fin q) /\ to_f64 c = Fin q.
Proof.
  unfold is_finite, as_float.
  destruct c as [q| | | |]; cbn [to_f64 to_float_cell]; try done.
  destruct (rnd q) as [x| |]; try done. intros _. by exists x.
Qed.

Lemma mapM_as_float_finite (l : list cell) :
  forallb is_finite l = true -> mapM as_float l = Ok (map to_f64 l).
Proof.
  intros Hl. apply mapM_Ok. apply Forall_forall. intros c Hc.
  pose proof (forallb_elem_of _ _ _ Hl Hc) as Hf.
  destruct (as_float_finite c Hf) as (q & -> & ->). done.
Qed.

Lemma colours_lookup (v : list f64) (i : nat) :
  (i < length v)%nat -> colours v !! i = Some (colour_at v i).
Proof.
  intros Hi. unfold colours. by rewrite list_lookup_fmap, lookup_seq_lt.
Qed.

Lemma length_colours (v : list f64) : length (colours v) = length v.
Proof. unfold colours. by rewrite length_map, length_seq. Qed.

Lemma colour_at_green (v : list f64) (i : nat) (a b : f64) :
  (0 < i)%nat -> v !! (i - 1)%nat = Some a -> v !! i = Some b ->
  colour_at v i = green <-> f64_leb a b = true.
Proof.
  intros Hi Ha Hb. unfold colour_at. case_decide; [lia|].
  rewrite !nth_lookup, Ha, Hb. cbn [from_option id].
  destruct (f64_leb a b); split; congruence.
Qed.

Lemma slice_two {A} (l : list A) (i : nat) (x y : A) :
  l !! i = Some x -> l !! (i + 1)%nat = Some y -> slice l i (i + 2) = [x; y].
Proof.
  intros Hx Hy. unfold slice. replace (i + 2 - i)%nat with 2%nat by lia.
  apply list_eq. intros [|[|j]].
  - rewrite lookup_take_lt, lookup_drop by lia. by rewrite Nat.add_0_r.
  - rewrite lookup_take_lt, lookup_drop by lia. done.
  - rewrite lookup_take_ge by lia. done.
Qed.

Lemma segments_lookup (dates : list timestamp) (v : list f64) (cs : list colour)
    (i : nat) :
  (i < length v - 1)%nat ->
  segments dates v cs !! i =
    Some (mkSegment (slice dates i (i + 2)) (slice v i (i + 2)) (nth i cs green)).
Proof.
  intros Hi. unfold segments. by rewrite list_lookup_fmap, lookup_seq_lt.
Qed.

Section Extrapolation.

Variable lstsq : list Z -> list f64 -> LinearModel.

Lemma fit_finite (X : list Z) (y : list cell) :
  X <> [] -> forallb is_finite y = true ->
  fit lstsq X y = Ok (lstsq X (map to_f64 y)).
Proof.
  intros HX Hy. unfold fit. rewrite mapM_as_float_finite by done.
  rewrite bind_Ok. by destruct X.
Qed.

Lemma predict_horizon (m : LinearModel) (n : Z) :
  map (predict m) (arange n (n + future_days)) = horizon_values m n.
Proof.
  rewrite arange_shift by done. by rewrite map_map.
Qed.

Lemma extrapolate_finite (daily : list DailyRow) (t : timestamp) :
  last (map d_date daily) = Some (CDate t) ->
  forallb is_finite (map d_amount daily) = true ->
  t + 30 * DAY <= TIMESTAMP_MAX ->
  exists m,
    fit lstsq (map d_day daily) (map d_amount daily) = Ok m
    /\ extrapolate lstsq daily =
         Ok (horizon_dates t, horizon_values m (Z.of_nat (length daily))).
Proof.
  intros Hlast Hnum Ht.
  assert (map d_day daily <> []) as HX.
  { destruct daily; [discriminate|done]. }
  eexists. split; [by apply fit_finite|].
  unfold extrapolate. rewrite fit_finite by done. rewrite bind_Ok.
  unfold iloc_last. rewrite Hlast. rewrite bind_Ok. cbn [add_days].
  assert (0 < DAY) by done.
  destruct (Z.leb_spec (t + 1 * DAY) TIMESTAMP_MAX); [|lia].
  rewrite bind_Ok, date_range_horizon by done. rewrite bind_Ok.
  by rewrite predict_horizon.
Qed.


(** ** Chart colours *)

Lemma extrapolate_inv (daily : list DailyRow) (dates : list timestamp)
    (values : list f64) :
  extrapolate lstsq daily = Ok (dates, values) ->
  exists m t,
    fit lstsq (map d_day daily) (map d_amount daily) = Ok m
    /\ last (map d_date daily) = Some (CDate t)
    /\ t + 30 * DAY <= TIMESTAMP_MAX
    /\ dates = horizon_dates t
    /\ values = horizon_values m (Z.of_nat (length daily)).
Proof.
  unfold extrapolate. intros (m & Hm & H)%bind_Ok_inv.
  apply bind_Ok_inv in H as (lst & Hlst & H).
  apply bind_Ok_inv in H as (start & Hstart & H).
  apply bind_Ok_inv in H as (ds & Hds & [= <- <-]).
  destruct lst as [| | |t|]; try discriminate. cbn [add_days] in Hstart.
  destruct (Z.leb_spec (t + 1 * DAY) TIMESTAMP_MAX); [|discriminate].
  injection Hstart as <-.
  unfold iloc_last in Hlst. destruct (last (map d_date daily)) as [c|] eqn:Hl;
    [|discriminate]. injection Hlst as ->.
  destruct (Z.le_gt_cases (t + 30 * DAY) TIMESTAMP_MAX) as [Ht|Ht].
  - rewrite date_range_horizon in Hds by done. injection Hds as <-.
    exists m, t. by rewrite predict_horizon.
  - rewrite date_range_late in Hds by lia. discriminate.
Qed.

(** C5 (amended). In the chart of every forecast, point [i] carries the
    colour [colors[i]] and the segment from point [i] to point [i+1]
    carries that same colour.  The first point, and with it the segment
    that leaves it, is green by the fixed rule.  Every later point, and
    with it the segment that leaves it, is green exactly when the value
    of the point is not below the value of the point before it.  There
    are thirty markers and twenty-nine segments. *)
Theorem chart_colours (daily : list DailyRow) (dates : list timestamp)
    (values : list f64) :
  extrapolate lstsq daily = Ok (dates, values) ->
  length (forecast_segments (draw daily dates values)) = 29%nat
  /\ length (markers (draw daily dates values)) = 30%nat
  /\ forall i, (i < 30)%nat ->
       exists d v c,
         dates !! i = Some d /\ values !! i = Some v
         /\ markers (draw daily dates values) !! i = Some (d, v, c)
         /\ (i = 0%nat -> c = green)
         /\ (forall u, (0 < i)%nat -> values !! (i - 1)%nat = Some u ->
               c = green <-> f64_leb u v = true)
         /\ ((i < 29)%nat ->
              exists d' v',
                dates !! (i + 1)%nat = Some d' /\ values !! (i + 1)%nat = Some v'
                /\ forecast_segments (draw daily dates values) !! i
                     = Some (mkSegment [d; d'] [v; v'] c)).
Proof.
  intros (m & t & _ & _ & _ & -> & ->)%extrapolate_inv.
  set (n := Z.of_nat (length daily)).
  unfold draw. cbn [forecast_segments markers].
  split; [|split].
  - unfold segments. by rewrite length_map, length_seq, length_horizon_values.
  - by rewrite !length_zip, length_colours, length_horizon_dates, length_horizon_values.
  - intros i Hi.
    pose proof (horizon_values_lookup m n i Hi) as Hv.
    pose proof (horizon_dates_lookup t i Hi) as Hd.
    assert (colours (horizon_values m n) !! i = Some (colour_at (horizon_values m n) i)) as Hc.
    { apply colours_lookup. by rewrite length_horizon_values. }
    eexists _, _, _. split; [exact Hd|]. split; [exact Hv|].
    split; [|split; [|split]].
    + apply lookup_zip_with_Some. eexists _, _. split; [done|]. split; [|exact Hc].
      apply lookup_zip_with_Some. eauto.
    + intros ->. done.
    + intros u Hi0 Hu. by apply colour_at_green.
    + intros Hi29.
      assert (i + 1 < 30)%nat as Hi1 by lia.
      pose proof (horizon_values_lookup m n (i + 1) Hi1) as Hv1.
      pose proof (horizon_dates_lookup t (i + 1) Hi1) as Hd1.
      eexists _, _. split; [exact Hd1|]. split; [exact Hv1|].
      rewrite segments_lookup by (rewrite length_horizon_values; lia).
      rewrite (@slice_two timestamp _ _ _ _ Hd Hd1), (slice_two _ _ _ _ Hv Hv1).
      by rewrite nth_lookup, Hc.
Qed.

End Extrapolation.

(** ** The interchange form *)

Section Interchange.

Variable iso_text : Z -> string.

Lemma decode_number_whole (q : Qc) : is_whole q = true -> decode_number q = CNum q.
Proof. unfold decode_number. by intros ->. Qed.

(** One cell through the encoder and back. *)
Lemma of_json_to_json_cell (c : string) (col : list cell) (v : cell) :
  v ∈ col -> json_safe c col v = true ->
  of_json iso_text c (to_json_cell col v) = v.
Proof.
  intros Hin. destruct v as [q| |s|t|]; cbn [json_safe]; [| done | done | | done].
  - intros [_ Hsafe]%andb_prop. revert Hsafe.
    unfold reads_back. destruct (forallb is_int64 col) eqn:Hi.
    + intros _. pose proof (forallb_elem_of _ _ _ Hi Hin) as Hq.
      cbn [is_int64] in Hq. apply andb_prop in Hq as [[Hq _]%andb_prop _].
      cbn [to_json_cell]. fold (is_whole q) in Hq. rewrite Hq.
      unfold dtype_of. rewrite Hi. cbn [of_json]. by apply decode_number_whole.
    + cbn [orb]. intros [_ Hq]%andb_prop.
      destruct (to_json_cell col (CNum q)) as [q'| | |]; try done.
      cbn [of_json]. by apply bool_decide_eq_true in Hq.
  - intros [Hc Ht%Z.eqb_eq]%andb_prop. cbn [to_json_cell of_json]. rewrite Hc.
    f_equal. pose proof (Z.div_mod t 1000000 ltac:(lia)). lia.
Qed.

Lemma lookup_list_to_map_keys (h : string -> cell) (cols : list string)
    (c : string) :
  c ∈ cols ->
  (list_to_map (map (fun c => (c, h c)) cols) : gmap string cell) !! c
    = Some (h c).
Proof.
  induction cols as [|c0 cols IH]; intros Hc; [by apply elem_of_nil in Hc|].
  cbn [map list_to_map foldr]. destruct (decide (c0 = c)) as [->|Hne].
  - by rewrite lookup_insert_eq.
  - rewrite lookup_insert_ne by done. apply IH.
    apply elem_of_cons in Hc as [?|?]; [congruence|done].
Qed.

Lemma elem_of_first_seen (x : string) (seen l : list string) :
  x ∈ first_seen seen l <-> x ∈ l /\ x ∉ seen.
Proof.
  revert seen. induction l as [|y l IH]; intros seen; cbn.
  - rewrite !elem_of_nil. tauto.
  - case_decide as Hy.
    + rewrite IH, elem_of_cons. split; [tauto|]. intros [[->|?] ?]; tauto.
    + rewrite !elem_of_cons, IH, elem_of_cons.
      destruct (decide (x = y)) as [->|]; tauto.
Qed.

Lemma round_trip_row_lookup (df : DataFrame) (r : gmap string cell) (c : string) :
  c ∈ columns df ->
  round_trip_row iso_text df r !! c
  = Some (of_json iso_text c (to_json_cell (column df c) (cell_at r c))).
Proof.
  intros Hc. unfold round_trip_row, of_record. rewrite map_map. cbn [fst snd].
  by rewrite (lookup_list_to_map_keys
                (fun c => of_json iso_text c (to_json_cell (column df c) (cell_at r c)))).
Qed.

Lemma read_json_to_json_rows (df : DataFrame) :
  rows (read_json iso_text (to_json df)) =
  map (fun r =>
         map_imap (fun c v =>
           Some (if coercible (map (round_trip_row iso_text df) (rows df)) c
                 then default v (to_float_cell v) else v))
           (round_trip_row iso_text df r))
      (rows df).
Proof.
  unfold read_json, to_json. cbn [rows].
  rewrite !map_map. reflexivity.
Qed.

Lemma read_json_to_json_columns (df : DataFrame) (c : string) :
  rows df <> [] -> c ∈ columns df -> c ∈ columns (read_json iso_text (to_json df)).
Proof.
  intros Hrows Hc. unfold read_json, to_json. cbn [columns].
  apply elem_of_first_seen. split; [|apply not_elem_of_nil].
  destruct (rows df) as [|r l]; [done|]. cbn [map concat].
  apply elem_of_app. left. rewrite map_map. cbn [fst]. by rewrite map_id.
Qed.

(** What is read back, before any conversion, is the column as it was. *)
Lemma round_trip_column (df : DataFrame) (c : string) :
  c ∈ columns df ->
  (forall r, r ∈ rows df -> json_safe c (column df c) (cell_at r c) = true) ->
  map (fun r => cell_at r c) (map (round_trip_row iso_text df) (rows df))
  = column df c.
Proof.
  intros Hc Hsafe. rewrite map_map. unfold column.
  apply map_ext_in. intros r Hr%list_elem_of_In.
  unfold cell_at at 1. rewrite round_trip_row_lookup by done. cbn.
  apply of_json_to_json_cell; [|by apply Hsafe].
  apply list_elem_of_fmap. by exists r.
Qed.

(** The conversion of numeric-looking columns does not touch a column
    whose text does not read as a number. *)
Lemma not_coercible (df : DataFrame) (c : string) :
  c ∈ columns df ->
  (forall r, r ∈ rows df -> json_safe c (column df c) (cell_at r c) = true) ->
  coercible (map (round_trip_row iso_text df) (rows df)) c = false.
Proof.
  intros Hc Hsafe. unfold coercible.
  pose proof (round_trip_column df c Hc Hsafe) as Hcol.
  set (raw := map (round_trip_row iso_text df) (rows df)) in *.
  destruct (existsb _ raw) eqn:Hex; [|done]. cbn [andb].
  apply existsb_exists in Hex as (r' & Hr'%list_elem_of_In & Hs).
  apply not_true_is_false. intros Hall.
  pose proof (forallb_elem_of _ _ _ Hall Hr') as Hconv. cbn beta in Hconv.
  assert (cell_at r' c ∈ column df c) as Hin.
  { rewrite <- Hcol. apply list_elem_of_fmap. by exists r'. }
  apply list_elem_of_fmap in Hin as (r & Heq & Hr).
  specialize (Hsafe r Hr). rewrite <- Heq in Hsafe.
  destruct (cell_at r' c) as [| |s| |]; try discriminate Hs.
  cbn [json_safe] in Hsafe. apply andb_prop in Hsafe as [_ Hn].
  apply negb_true_iff in Hn. unfold reads_as_number in Hn.
  apply bool_decide_eq_false in Hn. apply bool_decide_eq_true in Hconv.
  cbn [to_float_cell] in Hconv. apply Hn.
  destruct (read_float _); [by eexists|]. by destruct Hconv.
Qed.

Lemma read_json_to_json_column (df : DataFrame) (c : string) :
  c ∈ columns df ->
  (forall r, r ∈ rows df -> json_safe c (column df c) (cell_at r c) = true) ->
  column (read_json iso_text (to_json df)) c = column df c.
Proof.
  intros Hc Hsafe. unfold column at 1. rewrite read_json_to_json_rows.
  rewrite <- (round_trip_column df c Hc Hsafe).
  rewrite !map_map. apply map_ext. intros r.
  unfold cell_at. rewrite map_lookup_imap.
  destruct (round_trip_row iso_text df r !! c) as [v|]; [|done]. cbn.
  by rewrite not_coercible.
Qed.

Lemma read_json_to_json_getitem (df : DataFrame) (c : string) :
  rows df <> [] -> json_safe_frame df -> c ∈ columns df ->
  getitem (read_json iso_text (to_json df)) c = getitem df c.
Proof.
  intros Hrows Hsafe Hc.
  rewrite !getitem_column; [|done|by apply read_json_to_json_columns].
  f_equal. apply read_json_to_json_column; [done|]. intros r Hr. by apply Hsafe.
Qed.

Lemma length_read_json_to_json (df : DataFrame) :
  length (rows (read_json iso_text (to_json df))) = length (rows df).
Proof. rewrite read_json_to_json_rows. by rewrite length_map. Qed.

End Interchange.

(** ** Frames that agree on the columns read *)

Lemma summarize_ext (df1 df2 : DataFrame) :
  (forall c, c ∈ numeric_columns -> getitem df1 c = getitem df2 c) ->
  summarize df1 = summarize df2.
Proof.
  intros H. unfold summarize, column_sum.
  by rewrite !H by (unfold numeric_columns; elem_of_labels).
Qed.

Lemma groupby_sum_ext (df1 df2 : DataFrame) (key val : string) :
  getitem df1 key = getitem df2 key -> getitem df1 val = getitem df2 val ->
  groupby_sum df1 key val = groupby_sum df2 key val.
Proof. intros Hk Hv. unfold groupby_sum. by rewrite Hk, Hv. Qed.

Lemma column_setitem (df : DataFrame) (c c' : string) (vs : list cell) :
  length vs = length (rows df) ->
  column (setitem df c vs) c' = if decide (c' = c) then vs else column df c'.
Proof.
  unfold column, setitem. cbn [rows]. revert vs.
  destruct (decide (c' = c)) as [->|Hne];
    induction (rows df) as [|r l IH]; intros [|v vs] Hlen; try discriminate;
    try done; cbn [zip_with map]; injection Hlen as Hlen;
    rewrite (IH vs Hlen); f_equal; unfold cell_at.
  - by rewrite lookup_insert_eq.
  - by rewrite lookup_insert_ne.
Qed.

Lemma getitem_setitem (df : DataFrame) (c c' : string) (vs : list cell) :
  c ∈ columns df -> length vs = length (rows df) ->
  getitem (setitem df c vs) c' =
    if decide (c' = c) then Ok vs else getitem df c'.
Proof.
  intros Hc Hlen. unfold getitem at 1.
  assert (columns (setitem df c vs) = columns df) as ->.
  { unfold setitem. cbn [columns]. by case_decide. }
  fold (column (setitem df c vs) c'). rewrite column_setitem by done.
  unfold getitem, column. repeat case_decide; subst; done.
Qed.

Lemma time_series_empty (df : DataFrame) :
  "date" ∈ columns df -> "sale_amount" ∈ columns df -> rows df = [] ->
  time_series df = Ok [].
Proof.
  intros Hd Ha Hr. unfold time_series, groupby_sum.
  rewrite !getitem_column by done. unfold column. by rewrite Hr.
Qed.


(** On a valid table the dashboard is computed. *)
Lemma dashboard_valid (df : DataFrame) (s : Summary) :
  valid_dataset df -> summarize df = Ok s ->
  exists d, dashboard df = Ok d /\ summary d = s /\ data d = to_json df.
Proof.
  intros Hv Hs. unfold dashboard.
  rewrite (proj1 Hv), bind_Ok, Hs, bind_Ok.
  rewrite !group_sum_valid by (done || (unfold grouping_keys; elem_of_labels)).
  rewrite !bind_Ok. eexists. split; [reflexivity|]. by split.
Qed.

Lemma dashboard_Ok_inv (df : DataFrame) (d : Dashboard) :
  dashboard df = Ok d ->
  validate_data df = Ok tt
  /\ summarize df = Ok (summary d)
  /\ group_sum df "area" = Ok (area_sales d)
  /\ group_sum df "month" = Ok (month_sales d)
  /\ group_sum df "product" = Ok (product_sales d)
  /\ data d = to_json df.
Proof.
  unfold dashboard.
  destruct (validate_data df) as [|[]] eqn:Hv; [done|].
  destruct (summarize df); [done|].
  destruct (group_sum df "area"); [done|].
  destruct (group_sum df "month"); [done|].
  destruct (group_sum df "product"); [done|].
  cbn. by intros [= <-].
Qed.

(** ** Whole numbers as doubles *)

Lemma round_half_even_le (n d : Z) :
  0 <= n -> 0 < d -> round_half_even n d * d <= n + d.
Proof.
  intros Hn Hd. unfold round_half_even.
  pose proof (Z.mul_div_le n d Hd).
  repeat match goal with |- context [if ?b then _ else _] => destruct b end; nia.
Qed.

Lemma mag_of_Z_le (z : Z) : mag (of_Z z) <= Z.log2 (Z.abs z) + 1.
Proof.
  unfold mag. destruct (of_Z_num_den z) as [-> ->]. cbn [Z.log2].
  repeat match goal with |- context [if ?b then _ else _] => destruct b end; lia.
Qed.

(** A whole number of 64 bits is a finite double once rounded. *)
Lemma int64_finite (z : Z) :
  - 2 ^ 63 <= z < 2 ^ 63 -> is_finite (CNum (of_Z z)) = true.
Proof.
  intros Hz. unfold is_finite, to_f64, rnd.
  pose proof (mag_of_Z_le z) as Hmag.
  destruct (of_Z_num_den z) as [Hn Hd]. rewrite Hn, Hd.
  destruct (z =? 0); [done|].
  set (e := Z.max (mag (of_Z z) - 53) (- 1074)).
  destruct (0 <=? e) eqn:He; [|done].
  apply Z.leb_le in He.
  assert (Z.log2 (Z.abs z) <= 63) as Hlog.
  { destruct (Z.eq_dec (Z.abs z) 0) as [->|Hne]; [done|].
    apply Z.lt_succ_r. apply Z.log2_lt_pow2; lia. }
  assert (e <= 11) as He' by lia.
  assert (0 < 2 ^ e) as Hpos by (apply Z.pow_pos_nonneg; lia).
  assert (2 ^ e <= 2 ^ 11) as Hpow by (apply Z.pow_le_mono_r; lia).
  pose proof (round_half_even_le (Z.abs z) (1 * 2 ^ e) ltac:(lia) ltac:(lia)) as Hr.
  assert (2 ^ 64 <= 2 ^ 1024) as Hbig by (apply Z.pow_le_mono_r; lia).
  destruct (Z.leb_spec (2 ^ 1024) (round_half_even (Z.abs z) (1 * 2 ^ e) * 2 ^ e));
    [|done].
  exfalso. lia.
Qed.

Section Pipeline.

Variable iso_text : Z -> string.
Variable infer_datetime : list cell -> Result (list (option timestamp)).
Variable lstsq : list Z -> list f64 -> LinearModel.

(** C4 (amended). A table without rows is written as the empty list of
    records, from which no column can be recovered; the forecast route
    then fails at [df["date"]] with a [KeyError], before any series is
    built.  (An empty daily series handed to the fitting step would make
    that step fail with a [ValueError].) *)
Theorem forecast_empty_dataset (df : DataFrame) :
  rows df = [] ->
  to_json df = []
  /\ (exists e, forecast iso_text infer_datetime lstsq (to_json df) = Raise e
              /\ e = KeyError "date" /\ exn_class e = "KeyError")
  /\ (exists e, extrapolate lstsq [] = Raise e /\ exn_class e = "ValueError").
Proof.
  intros Hr. assert (to_json df = []) as -> by (unfold to_json; by rewrite Hr).
  split; [done|]. split; eexists; (split; [reflexivity|done]).
Qed.

Lemma to_datetime_instants (col : list cell) :
  instants col = true -> to_datetime infer_datetime col = Ok col.
Proof. unfold instants, to_datetime. by intros ->. Qed.

Lemma valid_instants (df : DataFrame) :
  valid_dataset df -> instants (column df "date") = true.
Proof.
  intros Hv. apply valid_column; [done|]. intros r Hr%typed_row_inv.
  destruct Hr as [Hr _]. by destruct (cell_at r "date").
Qed.

(** On a valid table with rows whose cells the interchange form carries
    unchanged, the [/forecast] route does on what it reads back what it
    would do on the table itself. *)
Lemma forecast_round_trip (df : DataFrame) :
  valid_dataset df -> rows df <> [] -> json_safe_frame df ->
  forecast iso_text infer_datetime lstsq (to_json df) =
    (daily ← time_series df;
     '(forecast_dates, forecast_values) ← extrapolate lstsq daily;
     s ← summarize df;
     a ← group_sum df "area";
     _ ← generate_pdf s a (zip (map strftime_ymd forecast_dates) forecast_values);
     Ok (mkForecast (zip (map strftime_ymd forecast_dates) forecast_values)
                    (draw daily forecast_dates forecast_values) s a)).
Proof.
  intros Hv Hrows Hsafe.
  assert (forall c, c ∈ REQUIRED_COLUMNS -> c ∈ columns df) as Hreq.
  { intros c Hc. by apply valid_columns. }
  pose proof (valid_instants df Hv) as Hinst.
  unfold forecast.
  set (df' := read_json iso_text (to_json df)).
  assert (forall c, c ∈ columns df -> getitem df' c = getitem df c) as Hget.
  { intros c Hc. by apply read_json_to_json_getitem. }
  rewrite Hget, getitem_column by (apply Hreq; by vm_compute). rewrite bind_Ok.
  rewrite to_datetime_instants by done. rewrite bind_Ok.
  set (df'' := setitem df' "date" (column df "date")).
  assert (forall c, c ∈ columns df -> getitem df'' c = getitem df c) as Hget'.
  { intros c Hc. unfold df''. rewrite getitem_setitem.
    - case_decide as Hcd; [|by apply Hget].
      subst. by rewrite getitem_column.
    - apply read_json_to_json_columns; [done|]. apply Hreq. by vm_compute.
    - unfold df'. by rewrite length_read_json_to_json, length_column. }
  assert (time_series df'' = time_series df) as ->.
  { unfold time_series. f_equal.
    apply groupby_sum_ext; apply Hget'; apply Hreq; by vm_compute. }
  rewrite (summarize_ext df'' df).
  2:{ intros c Hc. apply Hget', Hreq. unfold numeric_columns in Hc.
      repeat (apply elem_of_cons in Hc as [->|Hc]; [by vm_compute|]).
      by apply elem_of_nil in Hc. }
  rewrite (groupby_sum_ext df'' df) by (apply Hget', Hreq; by vm_compute).
  reflexivity.
Qed.

Lemma format_2f_group_total (col : list cell) (pairs : list (cell * cell)) (k : cell) :
  format_2f (group_total col pairs k) = Ok tt.
Proof.
  unfold group_total. destruct (forallb is_int64 col); [done|].
  by destruct (kahan _ _ _).
Qed.

Lemma generate_pdf_valid (df : DataFrame) (s : Summary) (a : list (cell * cell))
    (fd : list (Z * f64)) :
  valid_dataset df -> group_sum df "area" = Ok a -> generate_pdf s a fd = Ok tt.
Proof.
  intros Hv Ha. rewrite group_sum_valid in Ha
    by (done || (unfold grouping_keys; elem_of_labels)).
  injection Ha as <-. unfold generate_pdf.
  rewrite (mapM_Ok _ (fun _ => tt)); [done|].
  apply Forall_forall. intros p (k & -> & _)%list_elem_of_fmap.
  apply format_2f_group_total.
Qed.

(** The daily series of a valid table with rows is not empty and ends
    at an instant of the [date] column. *)
Lemma time_series_valid (df : DataFrame) :
  valid_dataset df -> rows df <> [] ->
  exists ds t,
    time_series df = Ok ds
    /\ ds <> []
    /\ last (map d_date ds) = Some (CDate t)
    /\ CDate t ∈ column df "date"
    /\ (forall r, r ∈ ds ->
          d_amount r = group_total (column df "sale_amount")
                                   (keyed df "date" "sale_amount") (d_date r)).
Proof.
  intros Hv Hrows.
  assert (forall c, c ∈ REQUIRED_COLUMNS -> c ∈ columns df) as Hreq.
  { intros c Hc. by apply valid_columns. }
  pose proof (valid_instants df Hv) as Hinst.
  assert (numeric (column df "sale_amount") = true) as Hnum.
  { apply valid_numeric; [done|]. unfold numeric_columns. elem_of_labels. }
  destruct (time_series_built df) as (ds & Hts & Hsorted & Hkeys & Hamt & Hday);
    [apply Hreq; by vm_compute..|done|done|].
  assert (ds <> []) as Hne.
  { destruct (rows df) as [|r l] eqn:Hr; [done|].
    assert (cell_at r "date" ∈ map d_date ds) as Hin.
    { apply Hkeys. split.
      - unfold column. rewrite Hr. by left.
      - destruct Hv as [_ Hty]. rewrite Hr in Hty.
        apply Forall_cons_1 in Hty as [Hty%typed_row_inv _].
        destruct Hty as [Hty _]. by destruct (cell_at r "date"). }
    intros ->. by apply elem_of_nil in Hin. }
  assert (exists t, last (map d_date ds) = Some (CDate t)
                    /\ CDate t ∈ column df "date") as (t & Hlast & Hin).
  { destruct (last (map d_date ds)) as [k|] eqn:Hl.
    - assert (k ∈ map d_date ds) as Hk.
      { apply last_Some in Hl as [l' ->]. apply elem_of_app. right. by left. }
      apply Hkeys in Hk as [Hk Hnn].
      pose proof (forallb_elem_of _ _ _ Hinst Hk).
      destruct k; try done. by eexists.
    - apply last_None in Hl. by destruct ds. }
  by exists ds, t.
Qed.


End Pipeline.

(** ** The shape of the interchange form *)

Lemma first_seen_ext (s1 s2 l : list string) :
  (forall x, x ∈ s1 <-> x ∈ s2) -> first_seen s1 l = first_seen s2 l.
Proof.
  revert s1 s2. induction l as [|y l IH]; intros s1 s2 H; [done|].
  cbn [first_seen]. destruct (decide (y ∈ s1)) as [H1|H1];
    destruct (decide (y ∈ s2)) as [H2|H2]; try (by apply IH).
  - by apply H in H1.
  - by apply H in H2.
  - f_equal. apply IH. intros x. rewrite !elem_of_cons, H. tauto.
Qed.

Lemma first_seen_app (seen l1 l2 : list string) :
  first_seen seen (l1 ++ l2) = first_seen seen l1 ++ first_seen (l1 ++ seen) l2.
Proof.
  revert seen. induction l1 as [|y l1 IH]; intros seen; [done|].
  cbn [app first_seen]. case_decide as Hy.
  - rewrite IH. f_equal. apply first_seen_ext. intros x.
    rewrite !elem_of_app, !elem_of_cons, elem_of_app.
    split; [tauto|]. intros [->|[?|?]]; tauto.
  - cbn [app]. rewrite IH. do 2 f_equal. apply first_seen_ext. intros x.
    rewrite !elem_of_app, !elem_of_cons, !elem_of_app. tauto.
Qed.

Lemma first_seen_all_seen (seen l : list string) :
  (forall x, x ∈ l -> x ∈ seen) -> first_seen seen l = [].
Proof.
  induction l as [|y l IH]; intros H; [done|]. cbn [first_seen].
  rewrite decide_True by (apply H; by left). apply IH. intros x Hx. apply H. by right.
Qed.

Lemma first_seen_NoDup_id (l : list string) : NoDup l -> first_seen [] l = l.
Proof.
  assert (forall seen, NoDup l -> (forall x, x ∈ l -> x ∉ seen) ->
            first_seen seen l = l) as Hgen.
  { induction l as [|y l IH]; intros seen Hl Hs; [done|].
    apply NoDup_cons in Hl as [Hy Hl]. cbn [first_seen].
    rewrite decide_False by (apply Hs; by left). f_equal. apply IH; [done|].
    intros x Hx [->|Hin]%elem_of_cons; [done|].
    by apply (Hs x); [right|]. }
  intros Hl. apply Hgen; [done|]. intros x _. apply not_elem_of_nil.
Qed.

Lemma to_json_keys (df : DataFrame) :
  Forall (fun rec => map fst rec = columns df) (to_json df).
Proof.
  unfold to_json. apply Forall_forall. intros rec (r & -> & _)%list_elem_of_fmap.
  rewrite map_map. cbn [fst]. by rewrite map_id.
Qed.

Lemma elem_of_concat (x : string) (ls : list (list string)) :
  x ∈ concat ls <-> exists l, x ∈ l /\ l ∈ ls.
Proof.
  induction ls as [|l ls IH]; cbn [concat].
  - split; [by intros ?%elem_of_nil|]. by intros (l & _ & ?%elem_of_nil).
  - rewrite elem_of_app, IH. split.
    + intros [H|(l' & H1 & H2)]; [exists l; split; [done|by left]|].
      exists l'. split; [done|by right].
    + intros (l' & H1 & [->|H2]%elem_of_cons); [by left|]. right. eauto.
Qed.

Lemma first_seen_records (cols : list string) (recs : list (list string)) :
  NoDup cols -> recs <> [] -> Forall (fun ks => ks = cols) recs ->
  first_seen [] (concat recs) = cols.
Proof.
  intros Hn Hne Hall. destruct recs as [|ks recs]; [done|].
  apply Forall_cons_1 in Hall as [-> Hall]. cbn [concat].
  rewrite first_seen_app, first_seen_NoDup_id by done.
  rewrite first_seen_all_seen; [by rewrite app_nil_r|].
  intros x (ks & Hx & Hks)%elem_of_concat. apply elem_of_app. left.
  eapply Forall_forall in Hall; [|done]. by subst.
Qed.

Section Shape.

Variable iso_text : Z -> string.
Variable infer_datetime : list cell -> Result (list (option timestamp)).
Variable lstsq : list Z -> list f64 -> LinearModel.

(** X8. Whatever the cells hold, writing a table with at least one row
    and distinct column labels to the interchange form and reading it
    back keeps the shape: one record per row, each with exactly the
    table's columns in order, and after reading the same columns in the
    same order and the same number of rows.  (A table without rows comes
    back without columns.) *)
Theorem round_trip_keeps_shape (df : DataFrame) :
  NoDup (columns df) -> rows df <> [] ->
  length (to_json df) = length (rows df)
  /\ Forall (fun rec => map fst rec = columns df) (to_json df)
  /\ columns (read_json iso_text (to_json df)) = columns df
  /\ length (rows (read_json iso_text (to_json df))) = length (rows df).
Proof.
  intros Hn Hne. split; [unfold to_json; by rewrite length_map|].
  split; [apply to_json_keys|]. split; [|apply length_read_json_to_json].
  unfold read_json. cbn [columns]. apply first_seen_records; [done| |].
  - unfold to_json. by destruct (rows df).
  - apply Forall_forall. intros ks (rec & -> & Hrec)%list_elem_of_fmap.
    pose proof (to_json_keys df) as Hk. by eapply Forall_forall in Hk.
Qed.

Lemma elem_of_read_json_columns (data : list record) (c : string) :
  c ∈ columns (read_json iso_text data)
  <-> exists rec, rec ∈ data /\ c ∈ map fst rec.
Proof.
  unfold read_json. cbn [columns].
  rewrite elem_of_first_seen, elem_of_concat. split.
  - intros [(ks & Hc & (rec & -> & Hrec)%list_elem_of_fmap) _]. eauto.
  - intros (rec & Hrec & Hc). split; [|apply not_elem_of_nil].
    exists (map fst rec). split; [done|]. apply list_elem_of_fmap. eauto.
Qed.

(** X9. The forecast route checks no schema: posted data in which no
    record has a [date] field (the empty list among them) fails at
    [df["date"]] with a [KeyError], not with the error of
    [validate_data]. *)
Theorem forecast_without_date_column (data : list record) :
  (forall rec, rec ∈ data -> "date" ∉ map fst rec) ->
  forecast iso_text infer_datetime lstsq data = Raise (KeyError "date").
Proof.
  intros Hno. unfold forecast, getitem.
  rewrite decide_False; [done|].
  intros (rec & Hrec & Hc)%elem_of_read_json_columns. by apply (Hno rec).
Qed.

(** X10. Posted data with dates that are instants but with no
    [sale_amount] field in any record gets past the date handling and
    fails in the grouping, with a [KeyError] for [sale_amount]. *)
Theorem forecast_without_amount_column (data : list record) :
  (exists rec, rec ∈ data /\ "date" ∈ map fst rec) ->
  instants (column (read_json iso_text data) "date") = true ->
  (forall rec, rec ∈ data -> "sale_amount" ∉ map fst rec) ->
  forecast iso_text infer_datetime lstsq data = Raise (KeyError "sale_amount").
Proof.
  intros Hdate Hinst Hno. unfold forecast.
  apply elem_of_read_json_columns in Hdate.
  rewrite getitem_column by done. rewrite bind_Ok.
  rewrite (to_datetime_instants infer_datetime) by done. rewrite bind_Ok.
  unfold time_series, groupby_sum.
  rewrite (getitem_setitem _ "date" "date") by (done || by rewrite length_column).
  rewrite (decide_True (P := "date" = "date")) by done. rewrite bind_Ok.
  rewrite (getitem_setitem _ "date" "sale_amount")
    by (done || by rewrite length_column).
  rewrite (decide_False (P := "sale_amount" = "date")) by done.
  assert (getitem (read_json iso_text data) "sale_amount"
          = Raise (KeyError "sale_amount")) as ->; [|reflexivity].
  unfold getitem. rewrite decide_False; [done|].
  intros (rec & Hrec & Hc)%elem_of_read_json_columns. by apply (Hno rec).
Qed.

(** ** From the dashboard to the forecast *)

Lemma sorted_last_greatest (l : list cell) (x : cell) :
  StronglySorted key_lt l -> last l = Some x ->
  forall y, y ∈ l -> y = x \/ key_lt y x.
Proof.
  induction 1 as [|y0 l Hs IH Hall]; [done|].
  rewrite last_cons. destruct (last l) as [z|] eqn:Hl.
  - intros [= ->] y [->|Hy]%elem_of_cons.
    + right. eapply Forall_forall in Hall; [done|]. by apply last_Some_elem_of.
    + by apply IH.
  - intros [= ->] y Hy. apply last_None in Hl. subst l.
    apply list_elem_of_singleton in Hy. by left.
Qed.

(** X11. For every valid table with at least one row whose cells the
    interchange form carries unchanged, whose amounts and counts are
    whole numbers of 64 bits and whose dates are all thirty days or more
    before the last instant a timestamp can hold, the dashboard is
    computed, the forecast route runs on the data the dashboard hands
    on, the sales by area in the report are those of the dashboard, and
    the forecast has thirty points, for the thirty calendar days that
    follow the latest date of the table, in whatever order the rows
    come. *)
Theorem forecast_after_dashboard (df : DataFrame) :
  valid_dataset df -> rows df <> [] -> json_safe_frame df ->
  forallb is_int64 (column df "sale_amount") = true ->
  forallb is_int64 (column df "sale_count") = true ->
  (forall t, CDate t ∈ column df "date" -> t + 30 * DAY <= TIMESTAMP_MAX) ->
  exists d f t,
    dashboard df = Ok d
    /\ forecast iso_text infer_datetime lstsq (data d) = Ok f
    /\ report_area_sales f = area_sales d
    /\ CDate t ∈ column df "date"
    /\ (forall t', CDate t' ∈ column df "date" -> t' <= t)
    /\ map fst (forecast_data f)
       = map (fun i => strftime_ymd t + (i + 1)) (arange 0 30)
    /\ length (forecast_data f) = 30%nat.
Proof.
  intros Hv Hrows Hsafe Ha Hc Hdates.
  destruct (summarize_valid_int df Hv Ha Hc) as (s & Hs & _).
  destruct (dashboard_valid df s Hv Hs) as (d & Hd & Hsum & Hdata).
  destruct (dashboard_Ok_inv df d Hd) as (_ & _ & Ha' & _).
  pose proof (valid_instants df Hv) as Hinst.
  destruct (time_series_built df) as (ds & Hts & Hsorted & Hkeys & Hamt & _).
  { apply valid_columns; [done|by vm_compute]. }
  { apply valid_columns; [done|by vm_compute]. }
  { done. }
  { apply valid_numeric; [done|]. unfold numeric_columns. elem_of_labels. }
  destruct (time_series_valid df Hv Hrows) as (ds' & t & Hts' & Hne & Hlast & Hin & _).
  rewrite Hts in Hts'. injection Hts' as <-.
  assert (forallb is_finite (map d_amount ds) = true) as Hfin.
  { apply forallb_intro. intros v (r & -> & Hr)%list_elem_of_fmap.
    rewrite (Hamt r Hr). unfold group_total. rewrite Ha.
    apply int64_finite, wrap64_range. }
  destruct (extrapolate_finite lstsq ds t Hlast Hfin (Hdates t Hin))
    as (m & _ & Hex).
  assert ("area" ∈ grouping_keys) as Hk by (unfold grouping_keys; elem_of_labels).
  exists d. eexists. exists t. split; [done|]. rewrite Hdata.
  rewrite (forecast_round_trip iso_text infer_datetime lstsq df Hv Hrows Hsafe).
  rewrite Hts, bind_Ok, Hex, bind_Ok, Hs, bind_Ok, Ha', bind_Ok.
  rewrite (generate_pdf_valid df) by done. rewrite bind_Ok.
  split; [reflexivity|]. cbn [report_area_sales forecast_data].
  split; [done|]. split; [done|]. split.
  { intros t' Ht'.
    destruct (sorted_last_greatest _ _ Hsorted Hlast (CDate t')) as [Heq|[Hle _]].
    - apply Hkeys. by split.
    - injection Heq as ->. lia.
    - cbn [key_leb] in Hle. lia. }
  split.
  - etrans; [apply fst_zip|].
    + rewrite length_map, length_horizon_dates, length_horizon_values. lia.
    + unfold horizon_dates. rewrite map_map. apply map_ext. intros i.
      apply strftime_ymd_add.
  - rewrite length_zip, length_map, length_horizon_dates, length_horizon_values.
    lia.
Qed.

End Shape.

(** ** Checks that run *)

Lemma valid_datasetb_correct (df : DataFrame) :
  valid_datasetb df = true -> valid_dataset df.
Proof.
  unfold valid_datasetb. intros [Hv Hr]%andb_prop. split.
  - by apply bool_decide_eq_true in Hv.
  - apply Forall_forall. intros r Hin. by eapply forallb_elem_of.
Qed.

Lemma json_safe_frameb_correct (df : DataFrame) :
  json_safe_frameb df = true -> json_safe_frame df.
Proof.
  unfold json_safe_frameb. intros H c r Hc Hr.
  pose proof (forallb_elem_of _ _ _ H Hc) as H'. cbn beta in H'.
  exact (forallb_elem_of _ _ _ H' Hr).
Qed.

Lemma early_dates (col : list cell) :
  forallb early col = true ->
  forall t, CDate t ∈ col -> t + 30 * DAY <= TIMESTAMP_MAX.
Proof.
  intros Hall t Ht. pose proof (forallb_elem_of _ _ _ Hall Ht) as H.
  by apply Z.leb_le in H.
Qed.

(** ** The properties on the sample tables *)

Lemma two_day_table_valid : valid_dataset two_day_table.
Proof. apply valid_datasetb_correct. by vm_compute. Qed.

Lemma two_day_table_safe : json_safe_frame two_day_table.
Proof. apply json_safe_frameb_correct. by vm_compute. Qed.

(** Scenario A: every required column but [gst]. *)
Lemma validate_data_spec_witness :
  validate_data (mkDF ["date"; "month"; "area"; "product"; "sale_count";
                       "sale_amount"; "net_value"; "profit"] [])
  = Raise (MissingColumns {[ "gst" ]})
  /\ validate_data two_day_table = Ok tt.
Proof.
  split.
  - apply (proj2 (proj2 (validate_data_spec _))). intros c Hc.
    cbn [columns]. split.
    + intros Hin ->. revert Hin. change (~ "gst" ∈ (["date"; "month"; "area";
        "product"; "sale_count"; "sale_amount"; "net_value"; "profit"] : list string)).
      compute_done.
    + intros Hne. revert Hc. unfold REQUIRED_COLUMNS.
      rewrite !elem_of_union, !elem_of_singleton.
      intros Hc. repeat (destruct Hc as [Hc| ->]); subst; try done;
        elem_of_labels.
  - apply (proj1 (validate_data_spec _)). apply validate_data_Ok_iff.
    exact (proj1 two_day_table_valid).
Defined.

(** Scenario B: the series of the two-day table skips 2024-01-02. *)
Lemma time_series_two_day_table : time_series two_day_table = Ok two_day_series.
Proof. compute_done. Qed.

Lemma time_series_spec_witness :
  exists ds,
    time_series two_day_table = Ok ds
    /\ StronglySorted key_lt (map d_date ds)
    /\ (forall i r, ds !! i = Some r -> d_day r = Z.of_nat i).
Proof.
  destruct (time_series_spec two_day_table) as (ds & H1 & H2 & _ & _ & H5).
  - unfold two_day_table, all_columns. cbn [columns]. elem_of_labels.
  - unfold two_day_table, all_columns. cbn [columns]. elem_of_labels.
  - by vm_compute.
  - by vm_compute.
  - by exists ds.
Defined.

(** C2, as stated, fails: two sales of one calendar day, at different
    times of day, come out as two entries of the daily series, each with
    its own amount; nothing folds them into one entry for the date. *)
Lemma time_series_same_day_counterexample :
  time_series same_day_table
  = Ok [mkDaily (CDate (midnight 19723 + 9 * HOUR)) (CNum (of_Z 100)) 0;
        mkDaily (CDate (midnight 19723 + 17 * HOUR)) (CNum (of_Z 200)) 1]
  /\ strftime_ymd (midnight 19723 + 9 * HOUR) = 19723
  /\ strftime_ymd (midnight 19723 + 17 * HOUR) = 19723.
Proof. split; [compute_done|]. by vm_compute. Qed.

(** The forecast of the two-day series under the line of least squares
    computed exactly: 300, 400, ... from 2024-01-04 on. *)
Lemma extrapolate_two_day_series :
  extrapolate exact_lstsq two_day_series
  = Ok (horizon_dates (midnight 19725),
        horizon_values (mkModel (Fin (of_Z 100)) (Fin (of_Z 100))) 2).
Proof. compute_done. Qed.



Lemma chart_colours_witness :
  length (forecast_segments
            (draw two_day_series (horizon_dates (midnight 19725))
                  (horizon_values (mkModel (Fin (of_Z 100)) (Fin (of_Z 100))) 2)))
  = 29%nat
  /\ length (markers
               (draw two_day_series (horizon_dates (midnight 19725))
                     (horizon_values (mkModel (Fin (of_Z 100)) (Fin (of_Z 100))) 2)))
     = 30%nat.
Proof.
  destruct (chart_colours exact_lstsq two_day_series _ _ extrapolate_two_day_series)
    as (H1 & H2 & _).
  by split.
Defined.

(** C5, as stated, fails: for three days of sales of five quadrillion,
    the last one short by one, the line of least squares falls by one
    half a day, and the forecast values, rounded to whole numbers, run
    ...998, ...998, ...998, ...997, ...996, ...996.  The segment from
    the third to the fourth point falls and is drawn green, because the
    third point is not below the second; the segment from the fifth to
    the sixth point is flat and is drawn red, because the fifth point is
    below the fourth. *)
Lemma chart_colours_counterexample :
  exists dates values,
    fit exact_lstsq (map d_day big_series) (map d_amount big_series)
    = Ok (mkModel (Fin (num (-1) 2)) (Fin (of_Z (5 * 10 ^ 15))))
    /\ extrapolate exact_lstsq big_series = Ok (dates, values)
    /\ take 6 values
       = map (fun z => Fin (of_Z (5 * 10 ^ 15 - z))) [2; 2; 2; 3; 4; 4]
    /\ f64_leb (Fin (of_Z (5 * 10 ^ 15 - 2))) (Fin (of_Z (5 * 10 ^ 15 - 3))) = false
    /\ forecast_segments (draw big_series dates values) !! 2%nat
       = Some (mkSegment [midnight 19728; midnight 19729]
                         [Fin (of_Z (5 * 10 ^ 15 - 2)); Fin (of_Z (5 * 10 ^ 15 - 3))]
                         green)
    /\ f64_leb (Fin (of_Z (5 * 10 ^ 15 - 4))) (Fin (of_Z (5 * 10 ^ 15 - 4))) = true
    /\ forecast_segments (draw big_series dates values) !! 4%nat
       = Some (mkSegment [midnight 19730; midnight 19731]
                         [Fin (of_Z (5 * 10 ^ 15 - 4)); Fin (of_Z (5 * 10 ^ 15 - 4))]
                         red).
Proof.
  exists (horizon_dates (midnight 19725)),
         (horizon_values (mkModel (Fin (num (-1) 2)) (Fin (of_Z (5 * 10 ^ 15)))) 3).
  split; [compute_done|]. split; [compute_done|]. split; [compute_done|].
  split; [by vm_compute|]. split; [compute_done|]. split; [by vm_compute|].
  compute_done.
Qed.

Lemma group_sum_adds_up_to_total_sales_witness :
  exists gs s,
    group_sum two_day_table "area" = Ok gs
    /\ summarize two_day_table = Ok s
    /\ (Series_sum (map snd gs) ≫= py_float) = Ok (total_sales s).
Proof.
  destruct (group_sum_adds_up_to_total_sales two_day_table "area")
    as (gs & s & H1 & H2 & _ & _ & H3).
  - apply valid_datasetb_correct. by vm_compute.
  - unfold grouping_keys. elem_of_labels.
  - by vm_compute.
  - by vm_compute.
  - by exists gs, s.
Defined.

(** C7, as stated, fails: with sales of 0.1 in the North and of 0.2 and
    0.3 in the South the total of the column is 0.6000000000000001,
    while the two area totals, 0.1 and 0.5, add up to 0.6. *)
Lemma group_sum_total_counterexample :
  valid_dataset tenths_table
  /\ exists gs s,
       group_sum tenths_table "area" = Ok gs
       /\ map snd gs = [CNum (double 1 1); CNum (double 5 1)]
       /\ summarize tenths_table = Ok s
       /\ total_sales s = Fin (double 6000000000000001 16)
       /\ (Series_sum (map snd gs) ≫= py_float) = Ok (Fin (double 6 1))
       /\ (Series_sum (map snd gs) ≫= py_float) <> Ok (total_sales s).
Proof.
  split; [apply valid_datasetb_correct; by vm_compute|].
  destruct (group_sum tenths_table "area") as [e|gs] eqn:Hg;
    [by vm_compute in Hg|].
  destruct (summarize tenths_table) as [e|s] eqn:Hs; [by vm_compute in Hs|].
  exists gs, s. split; [done|].
  assert (gs = [(CStr "North", CNum (double 1 1)); (CStr "South", CNum (double 5 1))])
    as ->.
  { assert (group_sum tenths_table "area"
            = Ok [(CStr "North", CNum (double 1 1));
                  (CStr "South", CNum (double 5 1))]) as Hg' by compute_done.
    rewrite Hg' in Hg. by injection Hg as <-. }
  assert (total_sales s = Fin (double 6000000000000001 16)) as Ht.
  { assert (Ok (total_sales s) = Ok (Fin (double 6000000000000001 16))) as [= ->];
      [|done].
    transitivity (s' ← summarize tenths_table; Ok (total_sales s'));
      [by rewrite Hs|]. compute_done. }
  split; [done|]. split; [done|]. split; [done|]. rewrite Ht.
  split; compute_done.
Qed.

Lemma group_sum_ascending_witness :
  exists gs,
    group_sum two_day_table "area" = Ok gs
    /\ StronglySorted key_lt (map fst gs).
Proof.
  destruct (group_sum_ascending two_day_table "area") as (gs & H1 & H2 & _).
  - apply valid_datasetb_correct. by vm_compute.
  - unfold grouping_keys. elem_of_labels.
  - by exists gs.
Defined.

(** What the grouping of the two-day table by area comes to. *)
Lemma group_sum_two_day_table :
  group_sum two_day_table "area"
  = Ok [(CStr "North", CNum (of_Z 100)); (CStr "South", CNum (of_Z 200))].
Proof. compute_done. Qed.

(** C4, as stated, fails: on a table without rows the forecast route
    raises a [KeyError], which is not an [InsufficientDataError]. *)
Lemma forecast_empty_counterexample :
  exists e,
    forecast no_iso_text no_inference exact_lstsq (to_json empty_table) = Raise e
    /\ exn_class e = "KeyError"
    /\ exn_class e <> "InsufficientDataError".
Proof. exists (KeyError "date"). by vm_compute. Qed.

Lemma forecast_empty_dataset_witness :
  rows empty_table = []
  /\ exists e,
       forecast no_iso_text no_inference exact_lstsq (to_json empty_table) = Raise e
       /\ e = KeyError "date".
Proof.
  split; [reflexivity|].
  destruct (forecast_empty_dataset no_iso_text no_inference exact_lstsq empty_table)
    as (_ & (e & H1 & H2 & _) & _); [reflexivity|].
  by exists e.
Defined.



(** The doubles 0.5 and 99.99 are read back as written; the double 0.3
    is not. *)
Lemma reads_back_samples :
  reads_back [CNum (double 5 1)] (double 5 1) = true
  /\ reads_back [CNum (double 9999 2)] (double 9999 2) = true
  /\ reads_back [CNum (double 3 1)] (double 3 1) = false
  /\ json_safe_frame half_table.
Proof.
  split; [by vm_compute|]. split; [by vm_compute|]. split; [by vm_compute|].
  apply json_safe_frameb_correct. by vm_compute.
Qed.

(** C9, as stated, fails: with both amounts text that is no number the
    column is joined to one piece of text, on which [float()] raises a
    [ValueError], not a [TypeError]. *)
Lemma summarize_text_counterexample :
  validate_data unreadable_amount_table = Ok tt
  /\ getitem unreadable_amount_table "sale_amount" = Ok [CStr "abc"; CStr "def"]
  /\ Series_sum [CStr "abc"; CStr "def"] = Ok (CStr "abcdef")
  /\ exists e, summarize unreadable_amount_table = Raise e
               /\ e = ValueError
               /\ exn_class e <> "TypeError".
Proof.
  split; [by vm_compute|]. split; [compute_done|]. split; [compute_done|].
  exists ValueError. split; [compute_done|]. split; [done|]. by vm_compute.
Qed.

(** A blank amount counts as zero, without any error. *)
Lemma summarize_blank_amount :
  summarize blank_amount_table
  = Ok (mkSummary (Fin (of_Z 100)) (Fin (of_Z 20)) 2 (Fin (of_Z 36))).
Proof. compute_done. Qed.

Lemma summarize_type_clash_witness :
  getitem mixed_amount_table "sale_amount" = Ok [CNum (of_Z 100); CStr "abc"]
  /\ summarize mixed_amount_table = Raise TypeError.
Proof.
  split; [compute_done|].
  destruct (summarize_type_clash mixed_amount_table) as (e & He & [->|[_ [Hn _]]]).
  - assert (forall c, (exists col, getitem mixed_amount_table c = Ok col
                         /\ (numeric col || clash col) = true) ->
                      numeric_or_clashing mixed_amount_table c) as Hchk.
    { intros c (col & Hg & [?|?]%orb_prop); exists col; auto. }
    unfold numeric_columns.
    repeat (constructor;
            [apply Hchk; eexists; split; [by vm_compute|by vm_compute]|]).
    constructor.
  - apply Exists_cons_hd. eexists. split; [by vm_compute|]. by vm_compute.
  - done.
  - exfalso. apply Hn. eexists. split; [by vm_compute|]. by vm_compute.
Defined.

(** On a falling line the first segment is green all the same, as the
    fixed rule has it, and the later ones are red. *)
Lemma falling_line_segments :
  exists dates values,
    extrapolate exact_lstsq falling_series = Ok (dates, values)
    /\ take 3 values = [Fin (of_Z 0); Fin (of_Z (-100)); Fin (of_Z (-200))]
    /\ map seg_colour (take 3 (forecast_segments (draw falling_series dates values)))
       = [green; red; red].
Proof.
  destruct (extrapolate exact_lstsq falling_series) as [e|[dates values]] eqn:He;
    [by vm_compute in He|].
  exists dates, values. split; [done|].
  assert (Ok (take 3 values,
              map seg_colour (take 3 (forecast_segments (draw falling_series dates values))))
          = (p ← extrapolate exact_lstsq falling_series;
             Ok (take 3 p.2,
                 map seg_colour (take 3 (forecast_segments (draw falling_series p.1 p.2))))))
    as H by (by rewrite He).
  assert ((p ← extrapolate exact_lstsq falling_series;
           Ok (take 3 p.2,
               map seg_colour (take 3 (forecast_segments (draw falling_series p.1 p.2)))))
          = Ok ([Fin (of_Z 0); Fin (of_Z (-100)); Fin (of_Z (-200))],
                [green; red; red])) as H'
    by compute_done.
  rewrite H' in H. injection H as H1 H2. split; [exact H1|exact H2].
Qed.
Lemma round_trip_keeps_shape_witness :
  columns (read_json no_iso_text (to_json two_day_table)) = columns two_day_table
  /\ length (rows (read_json no_iso_text (to_json two_day_table))) = 2%nat.
Proof.
  destruct (round_trip_keeps_shape no_iso_text two_day_table) as (_ & _ & H1 & H2).
  - unfold two_day_table, all_columns. cbn [columns]. compute_done.
  - discriminate.
  - by split.
Defined.

Lemma forecast_without_date_column_witness :
  forecast no_iso_text no_inference exact_lstsq undated_records = Raise (KeyError "date").
Proof.
  apply forecast_without_date_column.
  intros rec ->%list_elem_of_singleton. cbn [map fst]. compute_done.
Defined.

Lemma forecast_without_amount_column_witness :
  forecast no_iso_text no_inference exact_lstsq unpriced_records
  = Raise (KeyError "sale_amount").
Proof.
  apply forecast_without_amount_column.
  - eexists. split; [apply list_elem_of_here|]. cbn [map fst]. elem_of_labels.
  - by vm_compute.
  - intros rec ->%list_elem_of_singleton. cbn [map fst]. compute_done.
Defined.

Lemma forecast_after_dashboard_witness :
  exists d f t,
    dashboard two_day_table = Ok d
    /\ forecast no_iso_text no_inference exact_lstsq (data d) = Ok f
    /\ report_area_sales f = area_sales d
    /\ CDate t ∈ column two_day_table "date"
    /\ length (forecast_data f) = 30%nat.
Proof.
  destruct (forecast_after_dashboard no_iso_text no_inference exact_lstsq
              two_day_table)
    as (d & f & t & H1 & H2 & H3 & H4 & _ & _ & H5).
  - apply valid_datasetb_correct. by vm_compute.
  - discriminate.
  - apply json_safe_frameb_correct. by vm_compute.
  - by vm_compute.
  - by vm_compute.
  - apply early_dates. by vm_compute.
  - by exists d, f, t.
Defined.

(** ** The arithmetic of doubles, against the machine *)

Module Hardware.

Import PrimFloat.
#[local] Set Warnings "-inexact-float".

(** On the operands of the counterexamples, and where a sum overflows,
    a product underflows or a tie is broken, the operations of [f64] give
    what the machine's binary64 operations give. *)
Lemma f64_agrees_with_hardware :
  of_prim 0.1 = Fin (double 1 1)
  /\ of_prim (0.1 + 0.2) = f64_add (Fin (double 1 1)) (Fin (double 2 1))
  /\ of_prim (0.1 + 0.2 + 0.3)
     = f64_add (f64_add (Fin (double 1 1)) (Fin (double 2 1))) (Fin (double 3 1))
  /\ of_prim (0.1 + 0.2 + 0.3) = Fin (double 6000000000000001 16)
  /\ of_prim (0.1 + (0.2 + 0.3)) = Fin (double 6 1)
  /\ of_prim (3 * 0.1) = f64_mul (Fin (of_Z 3)) (Fin (double 1 1))
  /\ of_prim (3 * 0.1) = Fin (double 30000000000000004 17)
  /\ of_prim (99 + 99 * 0.01) = Fin (double 9999 2)
  /\ of_prim (1e308 + 1e308) = f64_add (rnd (of_Z (10 ^ 308))) (rnd (of_Z (10 ^ 308)))
  /\ of_prim (1e-200 * 1e-200)
     = f64_mul (Fin (double 1 200)) (Fin (double 1 200))
  /\ of_prim (1e-160 * 1e-160)
     = f64_mul (Fin (double 1 160)) (Fin (double 1 160))
  /\ of_prim (9007199254740992 + 1)
     = f64_add (Fin (of_Z (2 ^ 53))) (Fin (of_Z 1))
  /\ of_prim (5000000000000000 + 5 * -0.5)
     = f64_add (f64_mul (Fin (of_Z 5)) (Fin (num (-1) 2)))
               (Fin (of_Z (5 * 10 ^ 15))).
Proof. repeat split; compute_done. Qed.

End Hardware.
